(** * The customer-churn notebook: splitter, CSV writer and managed-ML workflow

    A shallow embedding of [customer_churn.ipynb].  The notebook is a
    straight-line script; what it computes itself is the train / validation /
    test split, the three CSV files, the storage locations it wires between
    jobs, and the three-container pipeline model it registers.  Library and
    platform behaviour the notebook relies on (the seeded sampler, the job
    runner, the clock) is taken as a parameter. *)

From Stdlib Require Import ZArith String Ascii Floats Uint63 Lia.
From stdpp Require Import base option list gmap strings fin_maps.

#[local] Set Warnings "-inexact-float".

Local Open Scope string_scope.
Local Open Scope list_scope.
Local Open Scope Z_scope.

(** ** Python results: a value or a raised exception *)

(** The four external jobs the notebook submits, named after the source line
    that submits them: [sklearn_preprocessor.fit], [transformer_train.transform],
    [transformer_validation.transform] and [xgb.fit]. *)
Inductive job_id : Type :=
| PreprocessFit
| TransformTrain
| TransformValidation
| XgbTrain.

#[global] Instance job_id_eq_dec : EqDecision job_id.
Proof. solve_decision. Defined.

Inductive exn : Type :=
| IndexError
| KeyError (label : string)
| ValueError
| OverflowError
| AttributeError
| FileNotFoundError (path : string)
| UnexpectedStatus (job : job_id)
| ClientError (name : string).

Inductive result (A : Type) : Type :=
| Ok (a : A)
| Raise (e : exn).
Arguments Ok {A} a.
Arguments Raise {A} e.

#[global] Instance result_ret : MRet result := fun A a => Ok a.
#[global] Instance result_bind : MBind result := fun A B f m =>
  match m with
  | Ok a => f a
  | Raise e => Raise e
  end.

Definition of_option {A} (e : exn) (o : option A) : result A :=
  match o with
  | Some a => Ok a
  | None => Raise e
  end.

(** ** Data frames *)

Definition cell := string.

(** A frame keeps its column labels and its rows; a row carries the index
    label pandas gave it when the file was read, which identifies the record
    through shuffling and slicing. *)
Record DataFrame : Type := mkDF {
  columns : list string;
  rows : list (nat * list cell)
}.

Definition index (df : DataFrame) : list nat := (rows df).*1.
Definition values (df : DataFrame) : list (list cell) := (rows df).*2.
Definition len (df : DataFrame) : Z := Z.of_nat (length (rows df)).

(** A CSV file with a header line as pandas has parsed it: the column
    names and, per record, its cells.  A cell stands for the parsed value,
    written the way [to_csv] writes that value; how pandas reads and
    formats numbers and missing values is not part of this development. *)
Record table : Type := mkTable {
  header : list string;
  body : list (list cell)
}.

(** [pd.read_csv('churn.txt')]: a fresh [RangeIndex]. *)
Definition read_csv (t : table) : DataFrame :=
  mkDF (header t) (zip (seq 0 (length (body t))) (body t)).

(** [df.take(locs)]: rows by position; a position out of range raises. *)
Definition df_take (df : DataFrame) (locs : list nat) : result DataFrame :=
  rs ← of_option IndexError (mapM (fun i => rows df !! i) locs);
  Ok (mkDF (columns df) rs).

(** [sequence[start:stop]] with Python's index adjustment. *)
Definition py_slice {A} (l : list A) (start stop : Z) : list A :=
  let n := Z.of_nat (length l) in
  let adjust i := if i <? 0 then Z.max (i + n) 0 else Z.min i n in
  let lo := adjust start in
  let hi := adjust stop in
  take (Z.to_nat (hi - lo)) (drop (Z.to_nat lo) l).

(** The loop of [numpy.array_split]: one slice per pair of consecutive
    division points. *)
Fixpoint sub_arys {A} (sary : list A) (div_points : list Z) : list (list A) :=
  match div_points with
  | st :: rest =>
      match rest with
      | en :: _ => py_slice sary st en :: sub_arys sary rest
      | [] => []
      end
  | [] => []
  end.

(** [np.split(ary, indices)] with a list of indices. *)
Definition np_split (ary : DataFrame) (indices : list Z) : list DataFrame :=
  let Ntotal := len ary in
  let div_points := [0] ++ indices ++ [Ntotal] in
  mkDF (columns ary) <$> sub_arys (rows ary) div_points.

(** [int(x)] on a float: truncation towards zero; infinities and NaN raise. *)
Definition py_int (x : float) : result Z :=
  match Prim2SF x with
  | S754_zero _ => Ok 0
  | S754_finite s m e =>
      let v := if 0 <=? e then Z.pos m * 2 ^ e else Z.pos m / 2 ^ (- e) in
      Ok (if s then - v else v)
  | S754_infinity _ => Raise OverflowError
  | S754_nan => Raise ValueError
  end.

(** The implicit [float(n)] of [0.7 * len(churn)], for the lengths a frame
    can have ([n < 2^63]; the conversion is exact below [2^53]). *)
Definition py_float (n : Z) : float := PrimFloat.of_uint63 (Uint63.of_Z n).

(** [int(frac * len(df))]. *)
Definition boundary (frac : float) (df : DataFrame) : result Z :=
  py_int (frac * py_float (len df))%float.

(** [df.drop(label, axis=1)]: every column carrying the label goes; a label
    that no column carries raises [KeyError]. *)
Definition keep_cells (cols : list string) (label : string) (r : list cell)
  : list cell :=
  (filter (fun p => p.1 ≠ label) (zip cols r)).*2.

Definition df_drop (label : string) (df : DataFrame) : result DataFrame :=
  if decide (label ∈ columns df)
  then Ok (mkDF (filter (fun c => c ≠ label) (columns df))
                (prod_map id (keep_cells (columns df) label) <$> rows df))
  else Raise (KeyError label).

(** [df[label]] read on one row: the cell under the first column with that
    label. *)
Definition cell_of (cols : list string) (label : string) (r : list cell)
  : option cell :=
  hit ← list_find (fun p => p.1 = label) (zip cols r);
  Some hit.2.2.

(** A CSV file as the records handed to the writer, one list of fields per
    line. *)
Definition csv := list (list string).

(** [df.to_csv(path, header=h, index=False)]. *)
Definition to_csv (df : DataFrame) (with_header : bool) : csv :=
  (if with_header then [columns df] else []) ++ values df.

(** ** The splitter *)

Section Splitter.

(** numpy's generator state, [np.random.RandomState(seed)], and the draw
    [rs.choice(n, size=n, replace=False)] that [DataFrame.sample(frac=1)]
    makes. *)
Variable rng : Type.
Variable RandomState : Z -> rng.
Variable choice : rng -> nat -> list nat.

(** [df.sample(frac=1, random_state=...)]: with [random_state=None] the
    draw comes from the process-wide generator [ambient]. *)
Definition sample (ambient : rng) (random_state : option Z) (df : DataFrame)
  : result DataFrame :=
  let rs := match random_state with
            | Some seed => RandomState seed
            | None => ambient
            end in
  df_take df (choice rs (length (rows df))).

(** Line 175 with the seed and the two fractions as parameters:
    [np.split(churn.sample(frac=1, random_state=seed),
              [int(frac1 * len(churn)), int(frac2 * len(churn))])],
    unpacked into three names. *)
Definition splitter (ambient : rng) (seed : Z) (frac1 frac2 : float)
    (churn : DataFrame) : result (DataFrame * DataFrame * DataFrame) :=
  shuffled ← sample ambient (Some seed) churn;
  i1 ← boundary frac1 churn;
  i2 ← boundary frac2 churn;
  match np_split shuffled [i1; i2] with
  | [train_data; validation_data; test_data] =>
      Ok (train_data, validation_data, test_data)
  | _ => Raise ValueError
  end.

(** Line 175 as the notebook has it. *)
Definition split_cell (ambient : rng) (churn : DataFrame)
  : result (DataFrame * DataFrame * DataFrame) :=
  splitter ambient 1729 0.7%float 0.9%float churn.

End Splitter.

(** ** The platform: storage, jobs, registry *)

(** [os.path.join(a, b)] on POSIX. *)
Definition ends_with_sep (a : string) : bool :=
  match last (list_ascii_of_string a) with
  | Some c => bool_decide (c = "/"%char)
  | None => false
  end.

Definition path_join (a b : string) : string :=
  if String.prefix "/" b then b
  else if bool_decide (a = "") || ends_with_sep a then a +:+ b
  else a +:+ "/" +:+ b.

(** What storage holds at a location. *)
Inductive object : Type :=
| CsvObject (content : csv)
| Artifact (payload : string).

Record TrainingInput : Type := mkTrainingInput {
  s3_data : string;
  content_type : option string;
  distribution : option string;
  s3_data_type : string
}.

(** [ti.config['DataSource']['S3DataSource']['S3Uri']]. *)
Definition S3Uri (ti : TrainingInput) : string := s3_data ti.

Module Estimator.
Record t : Type := mk {
  image_uri : string;
  role : string;
  instance_count : Z;
  instance_type : string;
  output_path : option string;
  entry_point : option string;
  hyperparameters : gmap string string;
  latest_training_job : option job_id
}.
Definition with_hyperparameters (h : gmap string string) (e : t) : t :=
  mk (image_uri e) (role e) (instance_count e) (instance_type e)
     (output_path e) (entry_point e) (h ∪ hyperparameters e)
     (latest_training_job e).
Definition with_job (j : job_id) (e : t) : t :=
  mk (image_uri e) (role e) (instance_count e) (instance_type e)
     (output_path e) (entry_point e) (hyperparameters e) (Some j).
End Estimator.

Module Model.
Record t : Type := mk {
  image_uri : string;
  model_data : string;
  env : gmap string string
}.
End Model.

Module Transformer.
Record t : Type := mk {
  model : Model.t;
  instance_count : Z;
  instance_type : string;
  assemble_with : string;
  output_path : string;
  accept : string;
  latest_transform_job : option job_id
}.
Definition with_job (j : job_id) (x : t) : t :=
  mk (model x) (instance_count x) (instance_type x) (assemble_with x)
     (output_path x) (accept x) (Some j).
End Transformer.

Inductive job_request : Type :=
| TrainingRequest (est : Estimator.t) (inputs : list (string * TrainingInput))
| TransformRequest (tr : Transformer.t) (data : string) (content_type : string).

(** The storage locations a request names as its input. *)
Definition request_inputs (req : job_request) : list string :=
  match req with
  | TrainingRequest _ inputs => (fun ch => S3Uri ch.2) <$> inputs
  | TransformRequest _ data _ => [data]
  end.

(** One entry of [Containers] in the model-registration call. *)
Record container : Type := mkContainer {
  Image : string;
  ModelDataUrl : string;
  Environment : gmap string string
}.

Record struct_time : Type := mkTime {
  tm_year : Z;
  tm_mon : Z;
  tm_mday : Z;
  tm_hour : Z;
  tm_min : Z;
  tm_sec : Z
}.

(** What the run cannot decide for itself. *)
Record platform : Type := mkPlatform {
  (** [get_execution_role()] *)
  execution_role : string;
  boto_region_name : string;
  (** the image the [SKLearn] estimator resolves for version 0.20.0 *)
  sklearn_image_uri : string;
  (** [sagemaker.image_uris.retrieve("xgboost", region, "1.2-1")] *)
  xgboost_image_uri : string;
  container_log_level : Z;
  (** [estimator.uploaded_code], set when the entry point is packaged *)
  uploaded_code_s3_prefix : string;
  uploaded_code_script_name : string;
  (** the name the SDK gives a job when it submits it *)
  job_name : job_id -> string;
  (** [ModelArtifacts.S3ModelArtifacts] of a completed training job *)
  model_artifacts : job_id -> string;
  (** a job run on what its input locations hold: [None] when it ends
      [Failed], else the objects it wrote *)
  run_job : job_id -> job_request -> list (gmap string object) ->
            option (list (string * object))
}.

(** What the platform and the console see of a run, in order. *)
Inductive event : Type :=
| EvUpload (uri : string)
| EvSubmit (j : job_id) (req : job_request) (data : list (gmap string object))
| EvWaitReturned (j : job_id) (written : list string)
| EvWaitRaised (j : job_id)
| EvReadOutput (j : job_id) (uri : string)
| EvPrint
| EvCreateModel (name : string) (containers : list container).

Record world : Type := mkWorld {
  files : gmap string csv;
  storage : gmap string object;
  registry : gmap string (list container * string);
  jobs : list (job_id * option (list (string * object)));
  trace : list event
}.

Definition set_files (f : gmap string csv) (w : world) : world :=
  mkWorld f (storage w) (registry w) (jobs w) (trace w).
Definition set_storage (s : gmap string object) (w : world) : world :=
  mkWorld (files w) s (registry w) (jobs w) (trace w).
Definition set_registry (r : gmap string (list container * string)) (w : world)
  : world :=
  mkWorld (files w) (storage w) r (jobs w) (trace w).
Definition set_jobs (js : list (job_id * option (list (string * object))))
    (w : world) : world :=
  mkWorld (files w) (storage w) (registry w) js (trace w).
Definition log (e : event) (w : world) : world :=
  mkWorld (files w) (storage w) (registry w) (jobs w) (trace w ++ [e]).

(** A run starts with none of its own files written and a silent
    platform.  [files] holds what the run writes; [churn.txt], which it only
    reads, is the [table] the run is given. *)
Definition fresh (st : gmap string object)
    (reg : gmap string (list container * string)) : world :=
  mkWorld ∅ st reg [] [].

(** ** The notebook's steps, threading the world; an exception ends the run *)

Definition M (A : Type) : Type := world -> result A * world.

Definition ret {A} (a : A) : M A := fun w => (Ok a, w).
Definition raise {A} (e : exn) : M A := fun w => (Raise e, w).
Definition lift {A} (r : result A) : M A := fun w => (r, w).
Definition bind {A B} (m : M A) (k : A -> M B) : M B := fun w =>
  match m w with
  | (Ok a, w') => k a w'
  | (Raise e, w') => (Raise e, w')
  end.
Definition emit (e : event) : M unit := fun w => (Ok tt, log e w).

Notation "'let*' x ':=' m 'in' k" := (bind m (fun x => k))
  (at level 10, x pattern, m at level 100, k at level 200).
Notation "m ';;' k" := (bind m (fun _ => k))
  (at level 100, k at level 200, right associativity).

(** ** Decimal text and [time.strftime] *)

Definition digit_char (d : Z) : ascii := ascii_of_nat (Z.to_nat (48 + d)).

Fixpoint decimal_digits (fuel : nat) (n : Z) (acc : string) : string :=
  match fuel with
  | O => acc
  | S fuel' =>
      let acc' := String (digit_char (n mod 10)) acc in
      if n / 10 =? 0 then acc' else decimal_digits fuel' (n / 10) acc'
  end.

(** The decimal digits of [n >= 0]; a number has no more decimal digits than
    binary ones. *)
Definition decimal (n : Z) : string :=
  decimal_digits (S (Z.to_nat (Z.log2 n))) n "".

(** [str(n)] on an integer. *)
Definition py_str (n : Z) : string :=
  if n <? 0 then "-" +:+ decimal (- n) else decimal n.

Definition zero_pad2 (n : Z) : string :=
  let s := decimal n in
  if (String.length s <? 2)%nat then "0" +:+ s else s.

Definition directive (d : ascii) (t : struct_time) : string :=
  if bool_decide (d = "Y"%char) then decimal (tm_year t)
  else if bool_decide (d = "m"%char) then zero_pad2 (tm_mon t)
  else if bool_decide (d = "d"%char) then zero_pad2 (tm_mday t)
  else if bool_decide (d = "H"%char) then zero_pad2 (tm_hour t)
  else if bool_decide (d = "M"%char) then zero_pad2 (tm_min t)
  else if bool_decide (d = "S"%char) then zero_pad2 (tm_sec t)
  else String "%" (String d "").

Fixpoint strftime (format : string) (t : struct_time) : string :=
  match format with
  | EmptyString => ""
  | String c rest =>
      match rest with
      | String d rest' =>
          if bool_decide (c = "%"%char)
          then directive d t +:+ strftime rest' t
          else String c (strftime rest t)
      | EmptyString => String c ""
      end
  end.

(** ** The notebook *)

Module Params.
(** The configuration cell, lines 56-57. *)
Definition bucket : string := "mlx-sagemaker-quicksight-customer-churn".
Definition prefix : string := "sagemaker/QS-xgboost-churn".
End Params.

(** ['s3://{}/{}/{}'.format(bucket, prefix, tail)]. *)
Definition s3_format (bucket prefix tail : string) : string :=
  "s3://" +:+ bucket +:+ "/" +:+ prefix +:+ "/" +:+ tail.

(** Lines 212-214. *)
Definition s3_input_train : TrainingInput :=
  mkTrainingInput (s3_format Params.bucket Params.prefix "rawtrain/")
                  (Some "csv") None "S3Prefix".
Definition s3_input_validation : TrainingInput :=
  mkTrainingInput (s3_format Params.bucket Params.prefix "rawvalidation/")
                  (Some "csv") None "S3Prefix".
Definition s3_input_test : TrainingInput :=
  mkTrainingInput (s3_format Params.bucket Params.prefix "rawtest/")
                  (Some "csv") None "S3Prefix".

(** The objects storage holds under a location read as a prefix. *)
Definition under (uri : string) (st : gmap string object) : gmap string object :=
  filter (fun kv => String.prefix uri kv.1 = true) st.

Definition job_status (j : job_id)
    (js : list (job_id * option (list (string * object))))
  : option (option (list (string * object))) :=
  snd <$> List.find (fun p => bool_decide (p.1 = j)) js.

Section Workflow.

Variable P : platform.

(** *** Library calls *)

Definition write_file (path : string) (c : csv) : M unit := fun w =>
  (Ok tt, set_files (<[path := c]> (files w)) w).

(** [Bucket(bucket).Object(key).upload_file(filename)].  Storage is taken
    to accept the object; what the call does when the platform refuses it
    (no such bucket, no access) is not modelled. *)
Definition upload_file (bucket key filename : string) : M unit := fun w =>
  match files w !! filename with
  | Some c =>
      let uri := "s3://" +:+ bucket +:+ "/" +:+ key in
      (Ok tt, log (EvUpload uri)
                  (set_storage (<[uri := CsvObject c]> (storage w)) w))
  | None => (Raise (FileNotFoundError filename), w)
  end.

(** A job is handed to the platform together with what its input
    locations hold at that moment.  The platform is taken to accept the
    request; a job that goes wrong is one that ends [Failed]. *)
Definition submit (j : job_id) (req : job_request) : M unit := fun w =>
  let data := (fun uri => under uri (storage w)) <$> request_inputs req in
  (Ok tt, log (EvSubmit j req data)
              (set_jobs ((j, run_job P j req data) :: jobs w) w)).

(** The blocking wait: it returns once the job has completed, its output
    then being in storage, and raises when the job has failed. *)
Definition wait (j : job_id) : M unit := fun w =>
  match job_status j (jobs w) with
  | Some (Some written) =>
      (Ok tt, log (EvWaitReturned j written.*1)
                  (set_storage (list_to_map written ∪ storage w) w))
  | Some None => (Raise (UnexpectedStatus j), log (EvWaitRaised j) w)
  | None => (Raise ValueError, w)
  end.

(** [estimator.fit(inputs)], which waits by default. *)
Definition fit (j : job_id) (est : Estimator.t)
    (inputs : list (string * TrainingInput)) : M Estimator.t :=
  submit j (TrainingRequest est inputs) ;;
  wait j ;;
  ret (Estimator.with_job j est).

(** [estimator.model_data]: where the estimator's training job left its
    artifacts. *)
Definition model_data (est : Estimator.t) : M string :=
  match Estimator.latest_training_job est with
  | Some j =>
      emit (EvReadOutput j (model_artifacts P j)) ;;
      ret (model_artifacts P j)
  | None => raise ValueError
  end.

(** [estimator.create_model(env=...)]: the model takes the estimator's
    image and model data. *)
Definition create_model (est : Estimator.t) (env : gmap string string)
  : M Model.t :=
  let* md := model_data est in
  ret (Model.mk (Estimator.image_uri est) md env).

(** [model.transformer(...)]. *)
Definition transformer (m : Model.t) (instance_count : Z)
    (instance_type assemble_with output_path accept : string)
  : Transformer.t :=
  Transformer.mk m instance_count instance_type assemble_with output_path
                 accept None.

(** [transformer.transform(data, content_type=...)]: the job is submitted.
    Where the library's own call already blocks until the job ends, that is
    the wait of the next line come early. *)
Definition transform (j : job_id) (tr : Transformer.t)
    (data content_type : string) : M Transformer.t :=
  submit j (TransformRequest tr data content_type) ;;
  ret (Transformer.with_job j tr).

(** [transformer.latest_transform_job.job_name]. *)
Definition latest_job_name (tr : Transformer.t) : M string :=
  match Transformer.latest_transform_job tr with
  | Some j => ret (job_name P j)
  | None => raise AttributeError
  end.

(** [transformer.wait()]. *)
Definition transformer_wait (tr : Transformer.t) : M unit :=
  match Transformer.latest_transform_job tr with
  | Some j => wait j
  | None => raise ValueError
  end.

(** [transformer.output_path + transformer.latest_transform_job.job_name]:
    the place the job's output is read from. *)
Definition output_location (tr : Transformer.t) : M string :=
  match Transformer.latest_transform_job tr with
  | Some j =>
      let path := Transformer.output_path tr +:+ job_name P j in
      emit (EvReadOutput j path) ;;
      ret path
  | None => raise AttributeError
  end.

(** [client.create_model(ModelName=..., Containers=..., ExecutionRoleArn=...)]:
    the platform creates under a free name and refuses a taken one. *)
Definition client_create_model (ModelName : string)
    (Containers : list container) (ExecutionRoleArn : string) : M unit :=
  fun w =>
    let w' := log (EvCreateModel ModelName Containers) w in
    match registry w !! ModelName with
    | Some _ => (Raise (ClientError ModelName), w')
    | None =>
        (Ok tt,
         set_registry (<[ModelName := (Containers, ExecutionRoleArn)]> (registry w)) w')
    end.

(** *** Cells *)

(** Lines 176-178. *)
Definition save_cell (parts : DataFrame * DataFrame * DataFrame) : M unit :=
  let '(train_data, validation_data, test_data) := parts in
  write_file "train.csv" (to_csv train_data false) ;;
  write_file "validation.csv" (to_csv validation_data false) ;;
  let* dropped := lift (df_drop "Churn?" test_data) in
  write_file "test.csv" (to_csv dropped true).

(** Lines 194-196. *)
Definition upload_cell : M unit :=
  upload_file Params.bucket (path_join Params.prefix "rawtrain/train.csv")
              "train.csv" ;;
  upload_file Params.bucket
              (path_join Params.prefix "rawvalidation/validation.csv")
              "validation.csv" ;;
  upload_file Params.bucket (path_join Params.prefix "rawtest/test.csv")
              "test.csv".

(** Lines 248-256. *)
Definition script_path : string :=
  "quicksight-sagemaker-integration/preprocessing.py".

Definition SKLearn (entry_point role instance_type : string) : Estimator.t :=
  Estimator.mk (sklearn_image_uri P) role 1 instance_type None
               (Some entry_point) ∅ None.

Definition preprocess_cell : M Estimator.t :=
  let sklearn_preprocessor :=
    SKLearn script_path (execution_role P) "local" in
  fit PreprocessFit sklearn_preprocessor [("train", s3_input_train)].

(** Lines 274-290. *)
Definition transform_train_cell (sklearn_preprocessor : Estimator.t)
  : M (Model.t * string) :=
  let transform_train_output_path :=
    s3_format Params.bucket Params.prefix "transformtrain-train-output/" in
  let* scikit_learn_inferencee_model :=
    create_model sklearn_preprocessor
                 {[ "TRANSFORM_MODE" := "feature-transform" ]} in
  let transformer_train :=
    transformer scikit_learn_inferencee_model 1 "local" "Line"
                transform_train_output_path "text/csv" in
  let* transformer_train :=
    transform TransformTrain transformer_train (S3Uri s3_input_train)
              "text/csv" in
  let* _ := latest_job_name transformer_train in
  emit EvPrint ;;
  transformer_wait transformer_train ;;
  let* preprocessed_train_path := output_location transformer_train in
  emit EvPrint ;;
  ret (scikit_learn_inferencee_model, preprocessed_train_path).

(** Lines 300-312. *)
Definition transform_validation_cell (scikit_learn_inferencee_model : Model.t)
  : M string :=
  let transform_validation_output_path :=
    s3_format Params.bucket Params.prefix
              "transformtrain-validation-output/" in
  let transformer_validation :=
    transformer scikit_learn_inferencee_model 1 "local" "Line"
                transform_validation_output_path "text/csv" in
  let* transformer_validation :=
    transform TransformValidation transformer_validation
              (S3Uri s3_input_validation) "text/csv" in
  let* _ := latest_job_name transformer_validation in
  emit EvPrint ;;
  transformer_wait transformer_validation ;;
  let* preprocessed_validation_path :=
    output_location transformer_validation in
  emit EvPrint ;;
  ret preprocessed_validation_path.

(** Lines 332-398. *)
Definition train_cell (preprocessed_train_path
                       preprocessed_validation_path : string)
  : M Estimator.t :=
  let container := xgboost_image_uri P in
  let s3_input_train_processed :=
    mkTrainingInput preprocessed_train_path (Some "text/csv")
                    (Some "FullyReplicated") "S3Prefix" in
  emit EvPrint ;;
  let s3_input_validation_processed :=
    mkTrainingInput preprocessed_validation_path (Some "text/csv")
                    (Some "FullyReplicated") "S3Prefix" in
  emit EvPrint ;;
  let xgb :=
    Estimator.mk container (execution_role P) 1 "ml.m4.xlarge"
                 (Some (s3_format Params.bucket Params.prefix "output"))
                 None ∅ None in
  let xgb :=
    Estimator.with_hyperparameters
      (list_to_map [("max_depth", "5"); ("eta", "0.2"); ("gamma", "4");
                    ("min_child_weight", "6"); ("subsample", "0.8");
                    ("objective", "binary:logistic"); ("num_round", "100")])
      xgb in
  fit XgbTrain xgb [("train", s3_input_train_processed);
                    ("validation", s3_input_validation_processed)].

(** Lines 415-422. *)
Definition postprocess_cell (sklearn_preprocessor : Estimator.t)
  : M Model.t :=
  let transform_postprocessor_path :=
    s3_format Params.bucket Params.prefix
              "transformtrain-postprocessing-output/" in
  let* scikit_learn_post_process_model :=
    create_model sklearn_preprocessor
                 {[ "TRANSFORM_MODE" := "inverse-label-transform" ]} in
  let transformer_post_processing :=
    transformer scikit_learn_post_process_model 1 "local" "Line"
                transform_postprocessor_path "text/csv" in
  ret scikit_learn_post_process_model.

(** Lines 439-475. *)
Definition sklearn_environment (TRANSFORM_MODE : string)
  : gmap string string :=
  list_to_map
    [("SAGEMAKER_SUBMIT_DIRECTORY", uploaded_code_s3_prefix P);
     ("TRANSFORM_MODE", TRANSFORM_MODE);
     ("SAGEMAKER_CONTAINER_LOG_LEVEL", py_str (container_log_level P));
     ("SAGEMAKER_REGION", boto_region_name P);
     ("SAGEMAKER_PROGRAM", uploaded_code_script_name P)].

Definition register_cell (gmtime : struct_time)
    (sklearn_preprocessor xgb : Estimator.t)
    (scikit_learn_post_process_model : Model.t) : M string :=
  let timestamp_prefix := strftime "%Y-%m-%d-%H-%M-%S" gmtime in
  let model_name := "QS-inference-pipeline-" +:+ timestamp_prefix in
  let* preprocess_data := model_data sklearn_preprocessor in
  let* predict_data := model_data xgb in
  client_create_model model_name
    [ mkContainer (Estimator.image_uri sklearn_preprocessor) preprocess_data
                  (sklearn_environment "feature-transform");
      mkContainer (Estimator.image_uri xgb) predict_data ∅;
      mkContainer (Model.image_uri scikit_learn_post_process_model)
                  (Model.model_data scikit_learn_post_process_model)
                  (sklearn_environment "inverse-label-transform") ]
    (execution_role P) ;;
  ret model_name.

(** *** The run *)

(** Everything after the files are written, cell after cell. *)
Definition workflow (gmtime : struct_time) : M string :=
  upload_cell ;;
  let* sklearn_preprocessor := preprocess_cell in
  let* (scikit_learn_inferencee_model, preprocessed_train_path) :=
    transform_train_cell sklearn_preprocessor in
  let* preprocessed_validation_path :=
    transform_validation_cell scikit_learn_inferencee_model in
  let* xgb :=
    train_cell preprocessed_train_path preprocessed_validation_path in
  let* scikit_learn_post_process_model :=
    postprocess_cell sklearn_preprocessor in
  register_cell gmtime sklearn_preprocessor xgb
                scikit_learn_post_process_model.

Variable rng : Type.
Variable RandomState : Z -> rng.
Variable choice : rng -> nat -> list nat.

(** Lines 175-178: split, then write the three files. *)
Definition split_and_save (ambient : rng) (churn : DataFrame)
  : M (DataFrame * DataFrame * DataFrame) :=
  let* parts := lift (split_cell rng RandomState choice ambient churn) in
  save_cell parts ;;
  ret parts.

(** The whole notebook on the downloaded file [churn]. *)
Definition notebook (ambient : rng) (gmtime : struct_time) (churn : table)
  : M string :=
  split_and_save ambient (read_csv churn) ;;
  workflow gmtime.

End Workflow.

(** ** A concrete sampler, platform and dataset to run the definitions on *)

Module Example.

(** A generator state is a rotation amount. *)
Definition RandomState (seed : Z) : nat := Z.to_nat seed.
Definition choice (g : nat) (n : nat) : list nat := rotate g (seq 0 n).

Definition churn_header : list string :=
  ["State"; "Account Length"; "Churn?"].

Definition record (i : nat) : list cell :=
  [ "KS"; decimal (Z.of_nat i);
    if Nat.even i then "True." else "False." ].

Definition churn_file (n : nat) : table :=
  mkTable churn_header (record <$> seq 0 n).

Definition run_job (j : job_id) (req : job_request)
    (data : list (gmap string object)) : option (list (string * object)) :=
  match req with
  | TrainingRequest _ _ => Some []
  | TransformRequest tr _ _ =>
      Some [(Transformer.output_path tr +:+ "job/part.csv.out", CsvObject [])]
  end.

Definition cloud : platform :=
  mkPlatform "arn:aws:iam::role/notebook" "us-east-1" "sklearn:0.20.0-cpu"
             "xgboost:1.2-1" 20 "s3://code/source" "preprocessing.py"
             (fun _ => "job")
             (fun _ => "s3://artifacts/model.tar.gz")
             run_job.

(** The same platform with one job failing. *)
Definition cloud_failing (bad : job_id) : platform :=
  mkPlatform "arn:aws:iam::role/notebook" "us-east-1" "sklearn:0.20.0-cpu"
             "xgboost:1.2-1" 20 "s3://code/source" "preprocessing.py"
             (fun _ => "job")
             (fun _ => "s3://artifacts/model.tar.gz")
             (fun j req data =>
                if bool_decide (j = bad) then None else run_job j req data).

(** The split of ten records, computed. *)
Definition parts10 : DataFrame * DataFrame * DataFrame :=
  Eval vm_compute in
    match split_cell nat RandomState choice 0%nat (read_csv (churn_file 10))
    with
    | Ok parts => parts
    | Raise _ => (mkDF [] [], mkDF [] [], mkDF [] [])
    end.

(** The same ten records but for the one the split sends to the test
    partition. *)
Definition churn_file_alt : table :=
  mkTable churn_header
          (<[8%nat := ["NY"; "80"; "False."]]> (record <$> seq 0 10)).

Definition parts10_alt : DataFrame * DataFrame * DataFrame :=
  Eval vm_compute in
    match split_cell nat RandomState choice 0%nat (read_csv churn_file_alt)
    with
    | Ok parts => parts
    | Raise _ => (mkDF [] [], mkDF [] [], mkDF [] [])
    end.

(** Fitted estimators and a model as the registration step receives
    them. *)
Definition fitted (image : string) (j : job_id) : Estimator.t :=
  Estimator.mk image "arn:aws:iam::role/notebook" 1 "local" None None ∅
               (Some j).
Definition post_model : Model.t :=
  Model.mk "sklearn:0.20.0-cpu" "s3://artifacts/model.tar.gz"
           {[ "TRANSFORM_MODE" := "inverse-label-transform" ]}.

Definition noon : struct_time := mkTime 2021 3 9 12 0 5.
Definition later : struct_time := mkTime 2021 3 9 12 0 6.

(** A dataset that lacks the label column, and its split. *)
Definition unlabelled_file : table :=
  mkTable ["State"; "Account Length"] [["KS"; "128"]; ["OH"; "107"]].

Definition parts_unlabelled : DataFrame * DataFrame * DataFrame :=
  Eval vm_compute in
    match split_cell nat RandomState choice 0%nat (read_csv unlabelled_file)
    with
    | Ok parts => parts
    | Raise _ => (mkDF [] [], mkDF [] [], mkDF [] [])
    end.

End Example.

(** ** Reading a run's trace *)

(** What kind of step an event is, whatever it carries. *)
Inductive step : Type :=
| StUpload
| StSubmit (j : job_id)
| StWaitReturned (j : job_id)
| StWaitRaised (j : job_id)
| StReadOutput (j : job_id)
| StPrint
| StCreateModel.

#[global] Instance step_eq_dec : EqDecision step.
Proof. solve_decision. Defined.

Definition step_of (e : event) : step :=
  match e with
  | EvUpload _ => StUpload
  | EvSubmit j _ _ => StSubmit j
  | EvWaitReturned j _ => StWaitReturned j
  | EvWaitRaised j => StWaitRaised j
  | EvReadOutput j _ => StReadOutput j
  | EvPrint => StPrint
  | EvCreateModel _ _ => StCreateModel
  end.

Definition steps (tr : list event) : list step := step_of <$> tr.

(** The wait on [j] is the next thing to happen, console output aside. *)
Fixpoint wait_is_next (j : job_id) (rest : list step) : bool :=
  match rest with
  | StPrint :: rest' => wait_is_next j rest'
  | StWaitReturned j' :: _ => bool_decide (j' = j)
  | StWaitRaised j' :: _ => bool_decide (j' = j)
  | _ => false
  end.

(** Every submission is followed at once by the wait on the job it
    submitted. *)
Fixpoint submit_then_wait (tr : list step) : bool :=
  match tr with
  | [] => true
  | StSubmit j :: rest => wait_is_next j rest && submit_then_wait rest
  | _ :: rest => submit_then_wait rest
  end.

(** Every [b] in the trace has an [a] before it. *)
Fixpoint preceded_by (a b : step) (tr : list step) : bool :=
  match tr with
  | [] => true
  | s :: rest =>
      if decide (s = a) then true
      else if decide (s = b) then false
      else preceded_by a b rest
  end.

(** The model registrations a trace holds. *)
Definition registrations (tr : list event) : list (string * list container) :=
  omap (fun e => match e with
                 | EvCreateModel name cs => Some (name, cs)
                 | _ => None
                 end) tr.

(** The job submissions a trace holds: the job, the request and the data
    its input locations held. *)
Definition submissions (tr : list event)
  : list (job_id * job_request * list (gmap string object)) :=
  omap (fun e => match e with
                 | EvSubmit j req data => Some (j, req, data)
                 | _ => None
                 end) tr.

(** The storage locations a step wrote. *)
Definition written_by (e : event) : list string :=
  match e with
  | EvUpload uri => [uri]
  | EvWaitReturned _ written => written
  | _ => []
  end.

(** A clock reading [gmtime()] can return, years of four digits. *)
Definition valid_time (t : struct_time) : Prop :=
  1000 <= tm_year t <= 9999 /\ 1 <= tm_mon t <= 12 /\ 1 <= tm_mday t <= 31
  /\ 0 <= tm_hour t <= 23 /\ 0 <= tm_min t <= 59 /\ 0 <= tm_sec t <= 61.

Definition two_digits (n : Z) : string :=
  String (digit_char (n / 10)) (String (digit_char (n mod 10)) "").

Definition four_digits (n : Z) : string :=
  String (digit_char (n / 1000))
    (String (digit_char (n / 100 mod 10)) (two_digits (n mod 100))).

(** Line 440. *)
Definition model_name_at (gmtime : struct_time) : string :=
  "QS-inference-pipeline-" +:+ strftime "%Y-%m-%d-%H-%M-%S" gmtime.

(** Where line 196 puts [test.csv]. *)
Definition test_object : string :=
  "s3://" +:+ Params.bucket +:+ "/" +:+
  path_join Params.prefix "rawtest/test.csv".

(** Storage with the uploaded test file left out. *)
Definition hide (s : gmap string object) : gmap string object :=
  delete test_object s.

(** Where lines 194 and 195 put [train.csv] and [validation.csv]. *)
Definition train_object : string :=
  "s3://" +:+ Params.bucket +:+ "/" +:+
  path_join Params.prefix "rawtrain/train.csv".

Definition validation_object : string :=
  "s3://" +:+ Params.bucket +:+ "/" +:+
  path_join Params.prefix "rawvalidation/validation.csv".

(** The jobs in the order the cells submit them. *)
Definition job_order : list job_id :=
  [PreprocessFit; TransformTrain; TransformValidation; XgbTrain].

(** The jobs a trace submits, in order. *)
Definition submitted (tr : list event) : list job_id :=
  (submissions tr).*1.*1.

(** The locations a trace uploads to, in order. *)
Definition uploads (tr : list event) : list string :=
  omap (fun e => match e with
                 | EvUpload uri => Some uri
                 | _ => None
                 end) tr.

(** ** Checking line 175's boundaries over a range of sizes *)

(** [f] holds at [n], [n + 1], ..., [n + fuel - 1]. *)
Fixpoint all_from (fuel : nat) (n : Z) (f : Z -> bool) : bool :=
  match fuel with
  | O => true
  | S fuel' => f n && all_from fuel' (n + 1) f
  end.

(** On [n] records [int(0.7 * n)] and [int(0.9 * n)] are computed, come out
    in order and within [n]; the second is the exact [9n/10] rounded down,
    the first that of [7n/10] or one less. *)
Definition boundaries_in_order (n : Z) : bool :=
  match py_int (0.7 * py_float n)%float, py_int (0.9 * py_float n)%float with
  | Ok i1, Ok i2 =>
      (0 <=? i1) && (i1 <=? i2) && (i2 <=? n)
      && (7 * n / 10 - 1 <=? i1) && (i1 <=? 7 * n / 10)
      && (i2 =? 9 * n / 10)
  | _, _ => false
  end.

(** * Properties *)

(** ** Slices and positional selection *)

Lemma py_slice_nonneg {A} (l : list A) (a b : Z) :
  0 <= a -> 0 <= b ->
  py_slice l a b =
  take (Z.to_nat (Z.min b (Z.of_nat (length l)))
        - Z.to_nat (Z.min a (Z.of_nat (length l))))%nat
       (drop (Z.to_nat (Z.min a (Z.of_nat (length l)))) l).
Proof.
  intros Ha Hb. unfold py_slice.
  destruct (Z.ltb_spec a 0); [lia|].
  destruct (Z.ltb_spec b 0); [lia|].
  f_equal. lia.
Qed.

Lemma slices_cover {A} (l : list A) (a b : Z) :
  0 <= a <= b ->
  py_slice l 0 a ++ py_slice l a b ++ py_slice l b (Z.of_nat (length l)) = l.
Proof.
  intros Hab.
  rewrite !py_slice_nonneg by lia.
  set (n := length l).
  set (na := Z.to_nat (Z.min a (Z.of_nat n))).
  set (nb := Z.to_nat (Z.min b (Z.of_nat n))).
  assert (Hna : (na <= nb)%nat) by lia.
  assert (Hnb : (nb <= n)%nat) by lia.
  replace (Z.to_nat (Z.min 0 (Z.of_nat n))) with 0%nat by lia.
  replace (Z.to_nat (Z.min (Z.of_nat n) (Z.of_nat n))) with n by lia.
  rewrite Nat.sub_0_r, drop_0.
  rewrite (take_ge (drop nb l)) by (rewrite length_drop; fold n; lia).
  replace (drop nb l) with (drop (nb - na) (drop na l))
    by (rewrite drop_drop; f_equal; lia).
  rewrite take_drop. apply take_drop.
Qed.

Lemma slice_length {A} (l : list A) (a b : Z) :
  0 <= a <= b -> b <= Z.of_nat (length l) ->
  Z.of_nat (length (py_slice l a b)) = b - a.
Proof.
  intros Hab Hb. rewrite py_slice_nonneg by lia.
  rewrite length_take, length_drop. lia.
Qed.

Lemma np_split_two (df : DataFrame) (i1 i2 : Z) :
  np_split df [i1; i2] =
  [ mkDF (columns df) (py_slice (rows df) 0 i1);
    mkDF (columns df) (py_slice (rows df) i1 i2);
    mkDF (columns df) (py_slice (rows df) i2 (len df)) ].
Proof. reflexivity. Qed.

Lemma mapM_lookup_seq {A} (l : list A) :
  mapM (fun i => l !! i) (seq 0 (length l)) = Some l.
Proof.
  apply mapM_Some. apply Forall2_same_length_lookup_2.
  - by rewrite length_seq.
  - intros i x y Hx Hy. apply lookup_seq in Hx as [-> _]. done.
Qed.

Lemma mapM_perm {A B} (f : A -> option B) (xs ys : list A) :
  xs ≡ₚ ys ->
  forall k, mapM f ys = Some k -> exists k', mapM f xs = Some k' /\ k' ≡ₚ k.
Proof.
  induction 1 as [|x xs ys _ IH|x y xs|xs ys zs _ IH1 _ IH2]; intros k Hk.
  - exists k. split; [done|done].
  - cbn in Hk |- *. destruct (f x) as [b|]; [|done]. cbn in Hk |- *.
    destruct (mapM f ys) as [k0|] eqn:E; [|done]. cbn in Hk.
    destruct (IH k0 eq_refl) as (k' & -> & Hp). cbn.
    injection Hk as <-. eexists. split; [done|]. by constructor.
  - cbn in Hk |- *. destruct (f x) as [b|]; [|done].
    destruct (f y) as [c|]; [|done]. cbn in Hk |- *.
    destruct (mapM f xs) as [k0|]; [|done]. cbn in Hk |- *.
    injection Hk as <-. eexists. split; [done|]. apply perm_swap.
  - destruct (IH2 k Hk) as (k1 & H1 & Hp1).
    destruct (IH1 k1 H1) as (k2 & H2 & Hp2).
    exists k2. split; [done|]. by etrans.
Qed.

Lemma df_take_perm (df : DataFrame) (locs : list nat) :
  locs ≡ₚ seq 0 (length (rows df)) ->
  exists rs, df_take df locs = Ok (mkDF (columns df) rs) /\ rs ≡ₚ rows df.
Proof.
  intros Hp.
  destruct (mapM_perm (fun i => rows df !! i) _ _ Hp (rows df)
              (mapM_lookup_seq _)) as (rs & Hrs & Hperm).
  exists rs. split; [|done]. unfold df_take. by rewrite Hrs.
Qed.


Lemma read_csv_length (t : table) :
  length (rows (read_csv t)) = length (body t).
Proof.
  unfold read_csv. cbn. rewrite length_zip_with, length_seq. lia.
Qed.

(** ** The splitter *)

Section SplitterFacts.

Context (rng : Type) (RandomState : Z -> rng) (choice : rng -> nat -> list nat).

(** A draw of [n] out of [n] without replacement is an arrangement of the
    positions [0 .. n-1]. *)
Hypothesis choice_perm : forall g n, choice g n ≡ₚ seq 0 n.

Lemma sample_perm ambient random_state (df : DataFrame) :
  exists rs,
    sample rng RandomState choice ambient random_state df
    = Ok (mkDF (columns df) rs) /\ rs ≡ₚ rows df.
Proof. unfold sample. apply df_take_perm, choice_perm. Qed.

(** With both boundaries computed, the split returns its three slices of
    the shuffled frame. *)
Lemma splitter_slices ambient seed frac1 frac2 (churn : DataFrame) i1 i2 :
  boundary frac1 churn = Ok i1 ->
  boundary frac2 churn = Ok i2 ->
  exists shuffled,
    shuffled ≡ₚ rows churn /\
    splitter rng RandomState choice ambient seed frac1 frac2 churn
    = Ok (mkDF (columns churn) (py_slice shuffled 0 i1),
          mkDF (columns churn) (py_slice shuffled i1 i2),
          mkDF (columns churn)
               (py_slice shuffled i2 (Z.of_nat (length shuffled)))).
Proof.
  intros H1 H2.
  destruct (sample_perm ambient (Some seed) churn) as (rs & Hs & Hp).
  exists rs. split; [done|].
  unfold splitter. rewrite Hs. cbn [mbind result_bind].
  rewrite H1, H2. cbn [mbind result_bind].
  rewrite np_split_two. unfold len. reflexivity.
Qed.


(** The notebook's fractions on 3,333 records. *)
Lemma boundaries_3333 (churn : DataFrame) :
  length (rows churn) = 3333%nat ->
  boundary 0.7%float churn = Ok 2333 /\ boundary 0.9%float churn = Ok 2999.
Proof.
  intros Hn. unfold boundary, len. rewrite Hn. split; by vm_compute.
Qed.

Lemma split_cell_3333 ambient (churn_file : table) :
  length (body churn_file) = 3333%nat ->
  exists train validation test,
    split_cell rng RandomState choice ambient (read_csv churn_file)
    = Ok (train, validation, test)
    /\ length (rows train) = 2333%nat
    /\ length (rows validation) = 666%nat
    /\ length (rows test) = 334%nat.
Proof.
  intros Hn. rewrite <- read_csv_length in Hn.
  destruct (boundaries_3333 _ Hn) as [H1 H2].
  destruct (splitter_slices ambient 1729 _ _ _ _ _ H1 H2)
    as (sh & Hp & Hsplit).
  eexists _, _, _. split; [exact Hsplit|]. cbn [rows].
  assert (Hlen : length sh = 3333%nat) by (by rewrite Hp).
  rewrite Hlen.
  assert (L1 := slice_length sh 0 2333 ltac:(lia) ltac:(lia)).
  assert (L2 := slice_length sh 2333 2999 ltac:(lia) ltac:(lia)).
  assert (L3 := slice_length sh 2999 3333 ltac:(lia) ltac:(lia)).
  change (Z.of_nat 3333) with 3333. lia.
Qed.

(** C2, as the code has it. On 3,333 records the boundaries are
    [int(0.7 * 3333) = 2333] and [int(0.9 * 3333) = 2999]: train has 2,333
    records, validation 666 and test the remaining 334. *)
Theorem split_sizes_3333 ambient (churn_file : table) :
  length (body churn_file) = 3333%nat ->
  boundary 0.7%float (read_csv churn_file) = Ok 2333
  /\ boundary 0.9%float (read_csv churn_file) = Ok 2999
  /\ exists train validation test,
       split_cell rng RandomState choice ambient (read_csv churn_file)
       = Ok (train, validation, test)
       /\ length (rows train) = 2333%nat
       /\ length (rows validation) = 666%nat
       /\ length (rows test) = 334%nat.
Proof.
  intros Hn.
  destruct (boundaries_3333 (read_csv churn_file)) as [H1 H2];
    [by rewrite read_csv_length|].
  split; [done|]. split; [done|]. by apply split_cell_3333.
Qed.

End SplitterFacts.

Lemma Example_choice_perm (g n : nat) : Example.choice g n ≡ₚ seq 0 n.
Proof.
  unfold Example.choice, rotate.
  rewrite Permutation_app_comm. by rewrite take_drop.
Qed.



Lemma Example_churn_file_length (n : nat) :
  length (body (Example.churn_file n)) = n.
Proof. unfold Example.churn_file. cbn. by rewrite length_fmap, length_seq. Qed.

Lemma split_sizes_3333_witness :
  boundary 0.7%float (read_csv (Example.churn_file 3333)) = Ok 2333
  /\ boundary 0.9%float (read_csv (Example.churn_file 3333)) = Ok 2999
  /\ exists train validation test,
       split_cell nat Example.RandomState Example.choice 0%nat
                  (read_csv (Example.churn_file 3333))
       = Ok (train, validation, test)
       /\ length (rows train) = 2333%nat
       /\ length (rows validation) = 666%nat
       /\ length (rows test) = 334%nat.
Proof.
  apply (split_sizes_3333 nat Example.RandomState Example.choice
           Example_choice_perm 0%nat (Example.churn_file 3333)).
  apply Example_churn_file_length.
Defined.

(** On 3,333 records the validation partition does not have 667 records. *)
Lemma validation_667_counterexample :
  ~ (forall churn_file : table,
       length (body churn_file) = 3333%nat ->
       exists train validation test,
         split_cell nat Example.RandomState Example.choice 0%nat
                    (read_csv churn_file)
         = Ok (train, validation, test)
         /\ length (rows train) = 2333%nat
         /\ length (rows validation) = 667%nat).
Proof.
  intros H.
  destruct (H (Example.churn_file 3333) (Example_churn_file_length _))
    as (tr & va & te & Hs & _ & Hva).
  destruct (split_cell_3333 nat Example.RandomState Example.choice
              Example_choice_perm 0%nat (Example.churn_file 3333)
              (Example_churn_file_length _))
    as (tr' & va' & te' & Hs' & _ & Hva' & _).
  rewrite Hs in Hs'. injection Hs' as -> -> ->. lia.
Qed.

(** ** The seed *)

(** Line 175 hands the sampler a seed.  Without one the draw is the ambient
    generator's. *)
Lemma Example_unseeded_sample_varies :
  sample nat Example.RandomState Example.choice 1%nat None
         (read_csv (Example.churn_file 3))
  <> sample nat Example.RandomState Example.choice 2%nat None
            (read_csv (Example.churn_file 3)).
Proof. vm_compute. discriminate. Qed.

(** ** The three files *)

Lemma zip_snoc {A B} (xs : list A) (ys : list B) (x : A) (y : B) :
  length xs = length ys ->
  zip (xs ++ [x]) (ys ++ [y]) = zip xs ys ++ [(x, y)].
Proof.
  revert ys. induction xs as [|a xs IH]; intros [|b ys] Hlen;
    simplify_eq/=; [done|]. f_equal. by apply IH.
Qed.

Lemma row_snoc {A} (r : list A) (n : nat) :
  length r = S n -> exists r' x, r = r' ++ [x] /\ length r' = n.
Proof.
  intros Hlen. destruct (decide (r = [])) as [->|Hne]; [done|].
  destruct (exists_last Hne) as (r' & x & ->).
  exists r', x. split; [done|]. rewrite length_app in Hlen. cbn in Hlen. lia.
Qed.

Lemma filter_all {A} (Q : A -> Prop) `{!forall x, Decision (Q x)} (l : list A) :
  Forall Q l -> filter Q l = l.
Proof.
  induction 1 as [|x l Hx _ IH]; [done|].
  rewrite filter_cons_True by done. by rewrite IH.
Qed.

Lemma zip_fst_elem {A B} (xs : list A) (ys : list B) (p : A * B) :
  p ∈ zip xs ys -> p.1 ∈ xs.
Proof.
  intros Hp. apply elem_of_zip_with in Hp as (x & y & -> & Hx & _). done.
Qed.

Section LabelLast.

Context (features : list string) (label : string).
Hypothesis label_fresh : label ∉ features.

Lemma filter_features_zip (r : list cell) :
  filter (fun p : string * cell => p.1 ≠ label) (zip features r)
  = zip features r.
Proof.
  apply filter_all. apply Forall_forall. intros p Hin.
  apply zip_fst_elem in Hin. intros Heq. by rewrite Heq in Hin.
Qed.

Lemma keep_cells_snoc (r : list cell) (x : cell) :
  length r = length features ->
  keep_cells (features ++ [label]) label (r ++ [x]) = r.
Proof.
  intros Hlen. unfold keep_cells.
  rewrite zip_snoc by done.
  rewrite filter_app, filter_features_zip.
  rewrite filter_cons_False by (cbn; tauto).
  rewrite filter_nil, app_nil_r. by apply snd_zip; lia.
Qed.

Lemma cell_of_snoc (r : list cell) (x : cell) :
  length r = length features ->
  cell_of (features ++ [label]) label (r ++ [x]) = Some x.
Proof.
  intros Hlen. unfold cell_of. rewrite zip_snoc by done.
  destruct (list_find (fun p : string * cell => p.1 = label)
                      (zip features r ++ [(label, x)]))
    as [[i p]|] eqn:E.
  - apply list_find_Some in E as (Hi & Hp & Hfirst). cbn.
    destruct (decide (i < length (zip features r))%nat) as [Hlt|Hge].
    + rewrite lookup_app_l in Hi by done.
      apply list_elem_of_lookup_2, zip_fst_elem in Hi.
      by rewrite Hp in Hi.
    + rewrite lookup_app_r in Hi by lia.
      destruct (i - length (zip features r))%nat; [|done].
      cbn in Hi. by injection Hi as <-.
  - apply list_find_None in E. rewrite Forall_app in E.
    destruct E as [_ E]. rewrite Forall_singleton in E.
    exfalso. by apply E.
Qed.

Lemma filter_columns :
  filter (fun c => c ≠ label) (features ++ [label]) = features.
Proof.
  rewrite filter_app, filter_cons_False by tauto.
  rewrite filter_nil, app_nil_r.
  apply filter_all. apply Forall_forall. by intros c Hc ->.
Qed.

End LabelLast.

Lemma py_slice_subseteq {A} (l : list A) (a b : Z) : py_slice l a b ⊆ l.
Proof.
  unfold py_slice. etrans; [apply subseteq_take|apply subseteq_drop].
Qed.

Lemma df_take_inv (df out : DataFrame) (locs : list nat) :
  df_take df locs = Ok out ->
  columns out = columns df /\ rows out ⊆ rows df.
Proof.
  unfold df_take. destruct (mapM _ locs) as [rs|] eqn:E; [|done].
  cbn. intros [= <-]. split; [done|]. cbn.
  apply mapM_Some in E. intros r Hr.
  apply list_elem_of_lookup in Hr as [i Hi].
  destruct (Forall2_lookup_r _ _ _ _ _ E Hi) as (k & _ & Hk).
  by eapply list_elem_of_lookup_2.
Qed.

Lemma splitter_inv (rng : Type) (RandomState : Z -> rng)
    (choice : rng -> nat -> list nat) ambient seed frac1 frac2
    (churn train validation test : DataFrame) :
  splitter rng RandomState choice ambient seed frac1 frac2 churn
  = Ok (train, validation, test) ->
  Forall (fun part => columns part = columns churn /\ rows part ⊆ rows churn)
         [train; validation; test].
Proof.
  unfold splitter, sample.
  destruct (df_take churn _) as [sh|] eqn:Hs; [|done].
  apply df_take_inv in Hs as [Hc Hr]. cbn [mbind result_bind].
  destruct (boundary frac1 churn) as [i1|]; [|done].
  destruct (boundary frac2 churn) as [i2|]; [|done].
  cbn [mbind result_bind]. rewrite np_split_two. intros [= <- <- <-].
  repeat constructor; cbn; try done;
    (etrans; [apply py_slice_subseteq|done]).
Qed.

(** C4. On a dataset whose last column is the label ['Churn?'] (and no
    other column is), once the split has returned, lines 176-178 write
    [train.csv] and [validation.csv] as one line per record and nothing
    else, each line ending in the record's label, and [test.csv] as a header
    line of the feature names followed by one line per record with the
    label field removed. *)
Theorem saved_files_header_and_label (rng : Type) (RandomState : Z -> rng)
    (choice : rng -> nat -> list nat) (ambient : rng) (churn_file : table)
    (features : list string) (train validation test : DataFrame) (w : world) :
  header churn_file = features ++ ["Churn?"] ->
  "Churn?" ∉ features ->
  Forall (fun r => length r = length (header churn_file)) (body churn_file) ->
  split_cell rng RandomState choice ambient (read_csv churn_file)
  = Ok (train, validation, test) ->
  exists w',
    split_and_save rng RandomState choice ambient (read_csv churn_file) w
    = (Ok (train, validation, test), w')
    /\ files w' !! "train.csv" = Some (values train)
    /\ files w' !! "validation.csv" = Some (values validation)
    /\ files w' !! "test.csv" = Some (features :: (@removelast cell <$> values test))
    /\ (forall r, r ∈ values train ++ values validation ->
          length r = length (header churn_file)
          /\ is_Some (last r)
          /\ last r = cell_of (header churn_file) "Churn?" r)
    /\ (forall r, r ∈ values test ->
          length (@removelast cell r) = length features).
Proof.
  intros Hhdr Hfresh Hwf Hsplit.
  pose proof (splitter_inv _ _ _ _ _ _ _ _ _ _ _ Hsplit) as Hparts.
  rewrite !Forall_cons in Hparts.
  destruct Hparts as ((Hc1 & Hr1) & (Hc2 & Hr2) & (Hc3 & Hr3) & _).
  assert (Hrow : forall part : DataFrame,
             rows part ⊆ rows (read_csv churn_file) ->
             forall r, r ∈ values part ->
             exists r' x, r = r' ++ [x] /\ length r' = length features).
  { intros part Hsub r Hr. unfold values in Hr.
    apply list_elem_of_fmap in Hr as ([i r0] & -> & Hin).
    apply Hsub in Hin. cbn in Hin.
    apply elem_of_zip_with in Hin as (i' & r1 & [= -> ->] & _ & Hin).
    rewrite Forall_forall in Hwf. specialize (Hwf _ Hin).
    cbn [snd]. apply row_snoc. rewrite Hwf, Hhdr, length_app. cbn. lia. }
  assert (Hdrop : df_drop "Churn?" test
                  = Ok (mkDF features
                          (prod_map id (@removelast cell) <$> rows test))).
  { unfold df_drop. rewrite Hc3. cbn [columns read_csv]. rewrite Hhdr.
    rewrite decide_True by (apply elem_of_app; right; by apply list_elem_of_singleton).
    rewrite filter_columns by done. do 2 f_equal.
    apply list_fmap_ext. intros k [i r] Hk. unfold prod_map. cbn [fst snd].
    f_equal. destruct (Hrow test Hr3 r) as (r' & x & -> & Hlen).
    { unfold values. apply list_elem_of_fmap. exists (i, r). split; [done|].
      by eapply list_elem_of_lookup_2. }
    rewrite keep_cells_snoc by done. by rewrite removelast_last. }
  eexists. split.
  { unfold split_and_save, bind, lift. rewrite Hsplit.
    unfold save_cell, bind, lift, write_file, ret. rewrite Hdrop. reflexivity. }
  cbn [files set_files].
  split.
  { do 2 (rewrite lookup_insert_ne by done). by rewrite lookup_insert_eq. }
  split.
  { rewrite lookup_insert_ne by done. by rewrite lookup_insert_eq. }
  split.
  { rewrite lookup_insert_eq. unfold to_csv, values. cbn.
    do 2 f_equal. generalize (rows test). intros rs.
    induction rs as [|[i r] rs IH]; [done|]. cbn. by rewrite IH. }
  split.
  - intros r Hr. apply elem_of_app in Hr.
    assert (exists r' x, r = r' ++ [x] /\ length r' = length features)
      as (r' & x & -> & Hlen) by (destruct Hr; eauto).
    rewrite Hhdr, !length_app, last_snoc, cell_of_snoc by done.
    cbn. eauto with lia.
  - intros r Hr. destruct (Hrow test Hr3 r Hr) as (r' & x & -> & Hlen).
    by rewrite removelast_last.
Qed.

(** ** Reading traces: what the checks mean *)

Lemma preceded_by_sound (a b : step) (tr : list step) :
  a <> b ->
  preceded_by a b tr = true ->
  forall i, tr !! i = Some b -> exists k, (k < i)%nat /\ tr !! k = Some a.
Proof.
  intros Hab. induction tr as [|s rest IH]; intros Hc i Hi; [done|].
  cbn in Hc. destruct (decide (s = a)) as [->|Hsa].
  - destruct i as [|i]; [cbn in Hi; congruence|].
    exists 0%nat. split; [lia|done].
  - destruct (decide (s = b)) as [->|Hsb]; [done|].
    destruct i as [|i]; [cbn in Hi; congruence|].
    destruct (IH Hc i Hi) as (k & Hk & Hka).
    exists (S k). split; [lia|done].
Qed.

Lemma wait_is_next_sound (j : job_id) (rest : list step) :
  wait_is_next j rest = true ->
  exists k,
    (rest !! k = Some (StWaitReturned j) \/ rest !! k = Some (StWaitRaised j))
    /\ forall m, (m < k)%nat -> rest !! m = Some StPrint.
Proof.
  induction rest as [|s rest IH]; intros Hc; [done|].
  destruct s; cbn in Hc; try done.
  - apply bool_decide_eq_true in Hc as ->.
    exists 0%nat. split; [by left|lia].
  - apply bool_decide_eq_true in Hc as ->.
    exists 0%nat. split; [by right|lia].
  - destruct (IH Hc) as (k & Hk & Hpr).
    exists (S k). split; [done|].
    intros [|m] Hm; [done|]. apply Hpr. lia.
Qed.

Lemma submit_then_wait_tail (s : step) (rest : list step) :
  submit_then_wait (s :: rest) = true -> submit_then_wait rest = true.
Proof.
  destruct s; cbn; try done. intros H. by apply andb_prop in H as [_ H].
Qed.

Lemma submit_then_wait_sound (tr : list step) :
  submit_then_wait tr = true ->
  forall i j, tr !! i = Some (StSubmit j) ->
  exists k, (i < k)%nat
    /\ (tr !! k = Some (StWaitReturned j) \/ tr !! k = Some (StWaitRaised j))
    /\ forall m, (i < m < k)%nat -> tr !! m = Some StPrint.
Proof.
  induction tr as [|s rest IH]; intros Hc i j Hi; [done|].
  destruct i as [|i].
  - cbn in Hi. injection Hi as ->. cbn in Hc.
    apply andb_prop in Hc as [Hn _].
    destruct (wait_is_next_sound _ _ Hn) as (k & Hk & Hpr).
    exists (S k). split; [lia|]. split; [done|].
    intros [|m] Hm; [lia|]. apply Hpr. lia.
  - apply submit_then_wait_tail in Hc.
    destruct (IH Hc i j Hi) as (k & Hk & Hw & Hpr).
    exists (S k). split; [lia|]. split; [done|].
    intros [|m] Hm; [lia|]. apply Hpr. lia.
Qed.

(** ** Running the notebook step by step *)

Lemma job_status_head (j : job_id) (o : option (list (string * object)))
    (js : list (job_id * option (list (string * object)))) :
  job_status j ((j, o) :: js) = Some o.
Proof. unfold job_status. cbn. by rewrite bool_decide_eq_true_2. Qed.

(** Reduce the run in [H : run = (r, w)] up to the next thing it depends
    on. *)
Ltac head_in H :=
  match type of H with
  | ?lhs = ?rhs =>
      let l := eval lazy head beta iota zeta delta
        [notebook split_and_save save_cell write_file
         workflow upload_cell upload_file preprocess_cell fit submit wait
         transform_train_cell transform_validation_cell train_cell
         postprocess_cell register_cell create_model model_data transformer
         transform latest_job_name transformer_wait output_location
         client_create_model emit bind ret raise lift
         Estimator.with_job Transformer.with_job
         Estimator.latest_training_job Transformer.latest_transform_job
         SKLearn Estimator.with_hyperparameters] in lhs in
      change (l = rhs) in H
  end.

(** Bring the worlds and the library objects in [H] to explicit form. *)
Ltac world_in H :=
  cbv beta iota zeta delta
    [log set_files set_storage set_registry set_jobs fresh
     files storage registry jobs trace fst snd app
     transformer SKLearn
     Estimator.with_job Estimator.with_hyperparameters Transformer.with_job
     Estimator.image_uri Estimator.role Estimator.instance_count
     Estimator.instance_type Estimator.output_path Estimator.entry_point
     Estimator.hyperparameters Estimator.latest_training_job
     Model.image_uri Model.model_data Model.env
     Transformer.model Transformer.instance_count Transformer.instance_type
     Transformer.assemble_with Transformer.output_path Transformer.accept
     Transformer.latest_transform_job
     request_inputs fmap list_fmap S3Uri s3_data] in H.

Ltac step_in H := head_in H; world_in H.

Ltac file_lookup H :=
  lazymatch type of H with
  | context [match (<[?k:=?c]> ?m) !! ?k with _ => _ end] =>
      rewrite (lookup_insert_eq m k c) in H
  | context [match (<[?k:=?c]> ?m) !! ?k' with _ => _ end] =>
      rewrite (lookup_insert_ne m k k' c) in H by discriminate
  end.

Ltac job_lookup H :=
  lazymatch type of H with
  | context [job_status ?j ((?j, ?o) :: ?js)] =>
      rewrite (job_status_head j o js) in H
  end.

Ltac case_job H :=
  lazymatch type of H with
  | context [match run_job ?P ?j ?r ?d with _ => _ end] =>
      let o := fresh "written" in
      let E := fresh "Ejob" in
      destruct (run_job P j r d) as [o|] eqn:E
  end.

Ltac case_registry H :=
  lazymatch type of H with
  | context [match ?reg !! ?name with _ => _ end] =>
      let E := fresh "Ereg" in
      destruct (reg !! name) eqn:E
  end.

(** From [H : notebook ... (fresh st reg) = (r, w)] to one goal per way the
    run can go, [r] and [w] replaced by what they are. *)
Ltac run H :=
  step_in H;
  lazymatch type of H with
  | context [split_cell ?rng ?rs ?ch ?amb ?df] =>
      destruct (split_cell rng rs ch amb df) as [[[? ?] ?]|?]
  end;
  step_in H;
  [ lazymatch type of H with
    | context [df_drop ?l ?df] => destruct (df_drop l df) as [?|?]
    end;
    step_in H;
    [ repeat first
        [ file_lookup H; step_in H
        | job_lookup H; step_in H
        | case_job H; step_in H ];
      try (case_registry H; step_in H)
    | ]
  | ];
  injection H as <- <-.

Ltac skeleton := cbn [trace steps fmap list_fmap step_of].

(** ** One job at a time *)

(** C6. In every run, each job submission is followed at once by the wait
    on that job, with nothing but console output in between, so no two
    jobs are ever in flight together; and the validation transform is
    submitted only after the wait on the train transform has returned. *)
Theorem one_job_at_a_time (P : platform) (rng : Type) (RandomState : Z -> rng)
    (choice : rng -> nat -> list nat) (ambient : rng) (gmtime : struct_time)
    (churn : table) (st : gmap string object)
    (reg : gmap string (list container * string)) :
  let tr :=
    steps (trace (notebook P rng RandomState choice ambient gmtime churn
                           (fresh st reg)).2) in
  (forall i j, tr !! i = Some (StSubmit j) ->
     exists k, (i < k)%nat
       /\ (tr !! k = Some (StWaitReturned j) \/ tr !! k = Some (StWaitRaised j))
       /\ forall m, (i < m < k)%nat -> tr !! m = Some StPrint)
  /\ (forall i, tr !! i = Some (StSubmit TransformValidation) ->
        exists k, (k < i)%nat /\ tr !! k = Some (StWaitReturned TransformTrain)).
Proof.
  destruct (notebook _ _ _ _ _ _ _ _) as [r w] eqn:Hrun. cbn [snd].
  run Hrun; skeleton;
    (split; [apply submit_then_wait_sound|apply preceded_by_sound; [done|]]);
    reflexivity.
Qed.

Ltac elem_inv H :=
  repeat (apply elem_of_cons in H as [H|H]; [try discriminate H|]);
  try (apply elem_of_nil in H; destruct H).

Ltac elem_solve :=
  repeat first [ apply list_elem_of_here | apply list_elem_of_further ].

Lemma submission_in (tr : list event) (j : job_id) (req : job_request)
    (data : list (gmap string object)) :
  EvSubmit j req data ∈ tr -> (j, req, data) ∈ submissions tr.
Proof.
  intros H. unfold submissions. apply list_elem_of_omap.
  by exists (EvSubmit j req data).
Qed.

(** ** Outputs are read only after the wait *)

(** C7. In every run, a job's output location is read only after the wait
    on that job has returned; the training job is submitted after the
    output locations of both transforms were read, and those two locations
    are exactly its inputs. *)
Theorem outputs_read_after_wait (P : platform) (rng : Type)
    (RandomState : Z -> rng) (choice : rng -> nat -> list nat) (ambient : rng)
    (gmtime : struct_time) (churn : table) (st : gmap string object)
    (reg : gmap string (list container * string)) :
  let tr := trace (notebook P rng RandomState choice ambient gmtime churn
                            (fresh st reg)).2 in
  (forall i j, steps tr !! i = Some (StReadOutput j) ->
     exists k, (k < i)%nat /\ steps tr !! k = Some (StWaitReturned j))
  /\ (forall i, steps tr !! i = Some (StSubmit XgbTrain) ->
        (exists k, (k < i)%nat
                   /\ steps tr !! k = Some (StReadOutput TransformTrain))
        /\ (exists k, (k < i)%nat
                      /\ steps tr !! k = Some (StReadOutput TransformValidation)))
  /\ (forall req data, EvSubmit XgbTrain req data ∈ tr ->
        exists p1 p2,
          EvReadOutput TransformTrain p1 ∈ tr
          /\ EvReadOutput TransformValidation p2 ∈ tr
          /\ request_inputs req = [p1; p2]).
Proof.
  destruct (notebook _ _ _ _ _ _ _ _) as [r w] eqn:Hrun. cbn [snd].
  run Hrun; (split; [|split]).
  all: try (skeleton; intros i j; revert i; destruct j;
            (apply preceded_by_sound; [done|reflexivity])).
  all: try (skeleton; intros i Hi; split; revert i Hi;
            (apply preceded_by_sound; [done|reflexivity])).
  all: intros req data Hin; apply submission_in in Hin;
    cbn [trace submissions omap list_omap] in Hin; elem_inv Hin.
  all: injection Hin as -> ->; cbn [trace]; eexists _, _;
    (split; [elem_solve|split; [elem_solve|reflexivity]]).
Qed.

(** ** A failed job ends the run *)

Lemma dom_storage_insert (s : gmap string object) (k uri : string) (v : object) :
  uri = k \/ is_Some (s !! uri) -> is_Some (<[k:=v]> s !! uri).
Proof.
  intros [->|H]; [by rewrite lookup_insert_eq|].
  destruct (decide (k = uri)) as [->|Hne]; [by rewrite lookup_insert_eq|].
  by rewrite lookup_insert_ne.
Qed.

Lemma dom_storage_union (m s : gmap string object) (uri : string) :
  is_Some (m !! uri) \/ is_Some (s !! uri) -> is_Some ((m ∪ s) !! uri).
Proof.
  intros H. apply lookup_union_is_Some. exact H.
Qed.

Lemma dom_written (written : list (string * object)) (uri : string) :
  uri ∈ written.*1 ->
  is_Some ((list_to_map written : gmap string object) !! uri).
Proof.
  intros H. apply not_eq_None_Some. intros Hn.
  by apply not_elem_of_list_to_map in Hn.
Qed.

Ltac in_storage :=
  repeat first
    [ assumption
    | apply dom_written; assumption
    | apply dom_storage_union; first [ left; in_storage; fail | right ]
    | apply dom_storage_insert; first [ left; reflexivity | right ] ].



(** ** The registered name *)

Lemma strftime_fields (t : struct_time) :
  strftime "%Y-%m-%d-%H-%M-%S" t
  = decimal (tm_year t) +:+
    String "-" (zero_pad2 (tm_mon t) +:+
    String "-" (zero_pad2 (tm_mday t) +:+
    String "-" (zero_pad2 (tm_hour t) +:+
    String "-" (zero_pad2 (tm_min t) +:+
    String "-" (zero_pad2 (tm_sec t) +:+ ""))))).
Proof.
  cbv -[decimal zero_pad2 String.append
        tm_year tm_mon tm_mday tm_hour tm_min tm_sec].
  reflexivity.
Qed.

Lemma zero_pad2_two_digits (n : Z) :
  0 <= n < 100 -> zero_pad2 n = two_digits n.
Proof.
  intros Hn.
  assert (H : Forall (fun n => zero_pad2 n = two_digits n) (seqZ 0 100)).
  { apply (bool_decide_unpack _). by vm_compute. }
  rewrite Forall_forall in H. apply H, elem_of_seqZ. lia.
Qed.

Lemma decimal_four_digits (n : Z) :
  1000 <= n < 10000 -> decimal n = four_digits n.
Proof.
  intros Hn.
  assert (H : Forall (fun n => decimal n = four_digits n) (seqZ 1000 9000)).
  { apply (bool_decide_unpack _). by vm_compute. }
  rewrite Forall_forall in H. apply H, elem_of_seqZ. lia.
Qed.

Lemma digit_char_inj (a b : Z) :
  0 <= a < 10 -> 0 <= b < 10 -> digit_char a = digit_char b -> a = b.
Proof.
  intros Ha Hb H. unfold digit_char in H.
  assert (Ha' : (Z.to_nat (48 + a) < 256)%nat) by lia.
  assert (Hb' : (Z.to_nat (48 + b) < 256)%nat) by lia.
  apply (f_equal nat_of_ascii) in H.
  rewrite !nat_ascii_embedding in H by assumption. lia.
Qed.

Lemma two_digits_inj (a b : Z) :
  0 <= a < 100 -> 0 <= b < 100 -> two_digits a = two_digits b -> a = b.
Proof.
  intros Ha Hb H.
  assert (0 <= a / 10 < 10 /\ 0 <= a mod 10 < 10) as [? ?] by (Z.div_mod_to_equations; lia).
  assert (0 <= b / 10 < 10 /\ 0 <= b mod 10 < 10) as [? ?] by (Z.div_mod_to_equations; lia).
  unfold two_digits in H. injection H as E1 E0.
  apply digit_char_inj in E1; [|assumption..].
  apply digit_char_inj in E0; [|assumption..].
  Z.div_mod_to_equations; lia.
Qed.

Lemma four_digits_inj (a b : Z) :
  0 <= a < 10000 -> 0 <= b < 10000 -> four_digits a = four_digits b -> a = b.
Proof.
  intros Ha Hb H.
  assert (0 <= a / 1000 < 10 /\ 0 <= a / 100 mod 10 < 10
          /\ 0 <= a mod 100 / 10 < 10 /\ 0 <= a mod 100 mod 10 < 10)
    as (? & ? & ? & ?) by (Z.div_mod_to_equations; lia).
  assert (0 <= b / 1000 < 10 /\ 0 <= b / 100 mod 10 < 10
          /\ 0 <= b mod 100 / 10 < 10 /\ 0 <= b mod 100 mod 10 < 10)
    as (? & ? & ? & ?) by (Z.div_mod_to_equations; lia).
  unfold four_digits, two_digits in H. injection H as E3 E2 E1 E0.
  apply digit_char_inj in E3; [|assumption..].
  apply digit_char_inj in E2; [|assumption..].
  apply digit_char_inj in E1; [|assumption..].
  apply digit_char_inj in E0; [|assumption..].
  Z.div_mod_to_equations; lia.
Qed.

Lemma model_name_inj (t t' : struct_time) :
  valid_time t -> valid_time t' ->
  model_name_at t = model_name_at t' -> t = t'.
Proof.
  destruct t as [y m d h mi s], t' as [y' m' d' h' mi' s'].
  unfold valid_time. cbn [tm_year tm_mon tm_mday tm_hour tm_min tm_sec].
  intros (Hy & Hm & Hd & Hh & Hmi & Hs) (Hy' & Hm' & Hd' & Hh' & Hmi' & Hs').
  unfold model_name_at. rewrite !strftime_fields.
  cbn [tm_year tm_mon tm_mday tm_hour tm_min tm_sec].
  rewrite !decimal_four_digits, !zero_pad2_two_digits by lia.
  intros H. cbn [String.append four_digits two_digits] in H.
  injection H as Ey3 Ey2 Ey1 Ey0 Em1 Em0 Ed1 Ed0 Eh1 Eh0 Emi1 Emi0 Es1 Es0.
  assert (Ey : four_digits y = four_digits y')
    by (unfold four_digits, two_digits; congruence).
  assert (Em : two_digits m = two_digits m')
    by (unfold two_digits; congruence).
  assert (Ed : two_digits d = two_digits d')
    by (unfold two_digits; congruence).
  assert (Eh : two_digits h = two_digits h')
    by (unfold two_digits; congruence).
  assert (Emi : two_digits mi = two_digits mi')
    by (unfold two_digits; congruence).
  assert (Es : two_digits s = two_digits s')
    by (unfold two_digits; congruence).
  apply four_digits_inj in Ey; [|lia..].
  apply two_digits_inj in Em; [|lia..].
  apply two_digits_inj in Ed; [|lia..].
  apply two_digits_inj in Eh; [|lia..].
  apply two_digits_inj in Emi; [|lia..].
  apply two_digits_inj in Es; [|lia..].
  by subst.
Qed.

(** ** The pipeline model *)

Lemma sklearn_environment_mode (P : platform) (mode : string) :
  sklearn_environment P mode !! "TRANSFORM_MODE" = Some mode.
Proof.
  unfold sklearn_environment. rewrite !list_to_map_cons.
  rewrite lookup_insert_ne by done. apply lookup_insert_eq.
Qed.

Lemma sklearn_environment_other (P : platform) (mode mode' k : string) :
  k <> "TRANSFORM_MODE" ->
  sklearn_environment P mode !! k = sklearn_environment P mode' !! k.
Proof.
  intros Hk. unfold sklearn_environment. rewrite !list_to_map_cons.
  rewrite !lookup_insert. repeat case_decide; congruence.
Qed.

(** C5. A run of the registration step on fitted estimators makes exactly
    one registration call, named ["QS-inference-pipeline-"] followed by the
    clock reading, with exactly three containers: the preprocessing image in
    feature-transform mode, the trained predictor, the postprocessing
    model in inverse-label-transform mode.  No registration that exists is
    changed; under a free name the call adds this one registration and
    returns its name; and two different clock readings give two different
    names, so a name that was free for a later run stays free. *)
Theorem registration_step (P : platform) (gmtime : struct_time)
    (sklearn_preprocessor xgb : Estimator.t)
    (scikit_learn_post_process_model : Model.t) (w : world) (j1 j2 : job_id) :
  Estimator.latest_training_job sklearn_preprocessor = Some j1 ->
  Estimator.latest_training_job xgb = Some j2 ->
  let run := register_cell P gmtime sklearn_preprocessor xgb
                           scikit_learn_post_process_model w in
  exists c1 c2 c3,
    registrations (trace run.2)
    = registrations (trace w) ++ [(model_name_at gmtime, [c1; c2; c3])]
    /\ (Image c1 = Estimator.image_uri sklearn_preprocessor
        /\ ModelDataUrl c1 = model_artifacts P j1
        /\ Environment c1 !! "TRANSFORM_MODE" = Some "feature-transform")
    /\ (Image c2 = Estimator.image_uri xgb
        /\ ModelDataUrl c2 = model_artifacts P j2
        /\ Environment c2 = ∅)
    /\ (Image c3 = Model.image_uri scikit_learn_post_process_model
        /\ ModelDataUrl c3 = Model.model_data scikit_learn_post_process_model
        /\ Environment c3 !! "TRANSFORM_MODE" = Some "inverse-label-transform")
    /\ (forall name old, registry w !! name = Some old ->
          registry run.2 !! name = Some old)
    /\ (registry w !! model_name_at gmtime = None ->
          run.1 = Ok (model_name_at gmtime)
          /\ registry run.2
             = <[model_name_at gmtime := ([c1; c2; c3], execution_role P)]>
                 (registry w))
    /\ (forall gmtime', valid_time gmtime -> valid_time gmtime' ->
          gmtime' <> gmtime ->
          model_name_at gmtime' <> model_name_at gmtime
          /\ (registry w !! model_name_at gmtime' = None ->
              registry run.2 !! model_name_at gmtime' = None)).
Proof.
  intros H1 H2. cbn zeta.
  unfold register_cell, model_data, client_create_model, bind, emit, ret.
  rewrite H1, H2. cbn [fst snd log registry trace].
  fold (model_name_at gmtime).
  assert (Hnames : forall gmtime', valid_time gmtime -> valid_time gmtime' ->
            gmtime' <> gmtime -> model_name_at gmtime' <> model_name_at gmtime).
  { intros t' Hv Hv' Hne Heq. apply Hne. by apply model_name_inj. }
  eexists _, _, _. split.
  { destruct (registry w !! model_name_at gmtime);
      cbn [snd]; unfold registrations, set_registry, log; cbn [trace];
      rewrite !omap_app; cbn; by rewrite !app_nil_r. }
  cbn [Image ModelDataUrl Environment].
  split; [split; [done|split; [done|apply sklearn_environment_mode]]|].
  split; [done|].
  split; [split; [done|split; [done|apply sklearn_environment_mode]]|].
  destruct (registry w !! model_name_at gmtime) as [old|] eqn:Hreg;
    unfold set_registry, log; cbn [fst snd registry].
  - split; [done|]. split; [done|].
    intros t' Hv Hv' Hne. split; [by apply Hnames|done].
  - split.
    { intros name old Hold. rewrite lookup_insert_ne; [done|congruence]. }
    split; [done|].
    intros t' Hv Hv' Hne. split; [by apply Hnames|].
    intros Hfree. rewrite lookup_insert_ne; [done|].
    intros Heq. by apply (Hnames t' Hv Hv' Hne).
Qed.

(** C9. Whatever registration a run of the notebook makes has three
    containers of which the first and the third name the same image and
    the same model data, and carry the same environment but for
    [TRANSFORM_MODE]: feature-transform in the first, inverse-label-transform
    in the third. *)
Theorem first_and_third_container (P : platform) (rng : Type)
    (RandomState : Z -> rng) (choice : rng -> nat -> list nat) (ambient : rng)
    (gmtime : struct_time) (churn : table) (st : gmap string object)
    (reg : gmap string (list container * string)) :
  Forall (fun registration =>
            exists c1 c2 c3,
              registration.2 = [c1; c2; c3]
              /\ Image c1 = Image c3
              /\ ModelDataUrl c1 = ModelDataUrl c3
              /\ Environment c1 !! "TRANSFORM_MODE" = Some "feature-transform"
              /\ Environment c3 !! "TRANSFORM_MODE"
                 = Some "inverse-label-transform"
              /\ forall k, k <> "TRANSFORM_MODE" ->
                   Environment c1 !! k = Environment c3 !! k)
         (registrations
            (trace (notebook P rng RandomState choice ambient gmtime churn
                             (fresh st reg)).2)).
Proof.
  destruct (notebook _ _ _ _ _ _ _ _) as [r w] eqn:Hrun. cbn [snd].
  run Hrun; cbn [trace registrations omap list_omap]; constructor;
    try constructor.
  all: eexists _, _, _; cbn [snd]; (split; [reflexivity|]).
  all: cbn [Image ModelDataUrl Environment].
  all: do 2 (split; [reflexivity|]).
  all: do 2 (split; [apply sklearn_environment_mode|]).
  all: intros k Hk; by apply sklearn_environment_other.
Qed.

(** ** The test partition stays out of every job *)

Lemma under_hide (uri : string) (s : gmap string object) :
  String.prefix uri test_object = false ->
  under uri s = under uri (hide s).
Proof.
  intros H. unfold hide, under. symmetry.
  apply map_filter_delete_not. intros y _. cbn. by rewrite H.
Qed.

Lemma hide_union (m s : gmap string object) : hide (m ∪ s) = hide m ∪ hide s.
Proof. apply delete_union. Qed.

Lemma hide_insert_test (v : object) (s : gmap string object) :
  hide (<[test_object := v]> s) = hide s.
Proof. apply delete_insert_eq. Qed.

Lemma df_drop_columns (label : string) (a b : DataFrame) :
  columns a = columns b ->
  (exists x y, df_drop label a = Ok x /\ df_drop label b = Ok y)
  \/ (df_drop label a = Raise (KeyError label)
      /\ df_drop label b = Raise (KeyError label)).
Proof.
  intros H. unfold df_drop. rewrite H. case_decide; eauto.
Qed.

Ltac hide_test H :=
  repeat match type of H with
         | context [under ?uri ?s] =>
             lazymatch s with
             | context [hide] => fail
             | _ =>
                 rewrite (under_hide uri s) in H by reflexivity;
                 rewrite ?hide_union, ?hide_insert_test in H
             end
         end.

(** C10. Two runs whose splits agree on the train and validation
    partitions and differ in the test partition submit the same jobs: the
    same requests, in the same order, with the same data under their input
    locations; they end alike and register the same model.  No request
    names the test location, nor any location that covers the uploaded test
    file. *)
Theorem test_partition_reaches_no_job (P : platform) (rng : Type)
    (RandomState : Z -> rng) (choice : rng -> nat -> list nat) (ambient : rng)
    (gmtime : struct_time) (churn1 churn2 : table) (st : gmap string object)
    (reg : gmap string (list container * string))
    (train validation test1 test2 : DataFrame) :
  split_cell rng RandomState choice ambient (read_csv churn1)
  = Ok (train, validation, test1) ->
  split_cell rng RandomState choice ambient (read_csv churn2)
  = Ok (train, validation, test2) ->
  let run1 := notebook P rng RandomState choice ambient gmtime churn1
                       (fresh st reg) in
  let run2 := notebook P rng RandomState choice ambient gmtime churn2
                       (fresh st reg) in
  submissions (trace run1.2) = submissions (trace run2.2)
  /\ run1.1 = run2.1
  /\ registry run1.2 = registry run2.2
  /\ Forall (fun sub =>
               (S3Uri s3_input_test ∉ request_inputs sub.1.2)
               /\ Forall (fun uri => String.prefix uri test_object = false)
                         (request_inputs sub.1.2))
            (submissions (trace run1.2)).
Proof.
  intros Hs1 Hs2.
  assert (Hcols : columns test1 = columns test2).
  { pose proof (splitter_inv _ _ _ _ _ _ _ _ _ _ _ Hs1) as F1.
    pose proof (splitter_inv _ _ _ _ _ _ _ _ _ _ _ Hs2) as F2.
    rewrite !Forall_cons in F1, F2.
    destruct F1 as ((Ht1 & _) & _ & (Hc1 & _) & _).
    destruct F2 as ((Ht2 & _) & _ & (Hc2 & _) & _). congruence. }
  destruct (notebook _ _ _ _ _ _ churn1 _) as [r1 w1] eqn:H1.
  destruct (notebook _ _ _ _ _ _ churn2 _) as [r2 w2] eqn:H2.
  cbn [fst snd].
  step_in H1. step_in H2. rewrite Hs1 in H1. rewrite Hs2 in H2.
  step_in H1. step_in H2.
  destruct (df_drop_columns "Churn?" _ _ Hcols)
    as [(d1 & d2 & E1 & E2)|[E1 E2]];
    rewrite E1 in H1; rewrite E2 in H2; step_in H1; step_in H2.
  2: { injection H1 as <- <-. injection H2 as <- <-.
       cbn [trace registry]. repeat split. constructor. }
  repeat (file_lookup H1; step_in H1).
  repeat (file_lookup H2; step_in H2).
  fold test_object in H1, H2.
  repeat (job_lookup H1; job_lookup H2; step_in H1; step_in H2;
          hide_test H1; hide_test H2;
          case_job H1; step_in H1; step_in H2).
  all: try (case_registry H1; step_in H1; step_in H2).
  all: injection H1 as <- <-; injection H2 as <- <-.
  all: cbn [trace registry submissions omap list_omap].
  all: repeat (split; [reflexivity|]).
  all: repeat constructor; cbn [fst snd request_inputs fmap list_fmap S3Uri
                                s3_data];
    try reflexivity.
  all: intros Hin; elem_inv Hin.
Qed.

(** ** The definitions at work on a small dataset *)

(** A run in which every job completes, step by step. *)
Lemma Example_run_steps :
  let run := notebook Example.cloud nat Example.RandomState Example.choice
                      0%nat Example.noon (Example.churn_file 10) (fresh ∅ ∅) in
  run.1 = Ok "QS-inference-pipeline-2021-03-09-12-00-05"
  /\ steps (trace run.2)
     = [StUpload; StUpload; StUpload;
        StSubmit PreprocessFit; StWaitReturned PreprocessFit;
        StReadOutput PreprocessFit;
        StSubmit TransformTrain; StPrint; StWaitReturned TransformTrain;
        StReadOutput TransformTrain; StPrint;
        StSubmit TransformValidation; StPrint;
        StWaitReturned TransformValidation;
        StReadOutput TransformValidation; StPrint;
        StPrint; StPrint;
        StSubmit XgbTrain; StWaitReturned XgbTrain;
        StReadOutput PreprocessFit; StReadOutput PreprocessFit;
        StReadOutput XgbTrain; StCreateModel]
  /\ files run.2 !! "test.csv" = Some [["State"; "Account Length"]; ["KS"; "8"]]
  /\ length (registrations (trace run.2)) = 1%nat.
Proof. vm_compute. repeat split. Qed.

(** The same run with the validation transform failing. *)
Lemma Example_failed_run_steps :
  let run := notebook (Example.cloud_failing TransformValidation) nat
                      Example.RandomState Example.choice 0%nat Example.noon
                      (Example.churn_file 10) (fresh ∅ ∅) in
  run.1 = Raise (UnexpectedStatus TransformValidation)
  /\ steps (trace run.2)
     = [StUpload; StUpload; StUpload;
        StSubmit PreprocessFit; StWaitReturned PreprocessFit;
        StReadOutput PreprocessFit;
        StSubmit TransformTrain; StPrint; StWaitReturned TransformTrain;
        StReadOutput TransformTrain; StPrint;
        StSubmit TransformValidation; StPrint;
        StWaitRaised TransformValidation].
Proof. vm_compute. repeat split. Qed.

Lemma saved_files_header_and_label_witness :
  exists w',
    split_and_save nat Example.RandomState Example.choice 0%nat
                   (read_csv (Example.churn_file 10)) (fresh ∅ ∅)
    = (Ok (Example.parts10.1.1, Example.parts10.1.2, Example.parts10.2), w')
    /\ files w' !! "train.csv" = Some (values Example.parts10.1.1)
    /\ files w' !! "validation.csv" = Some (values Example.parts10.1.2)
    /\ files w' !! "test.csv"
       = Some (["State"; "Account Length"]
               :: (@removelast cell <$> values Example.parts10.2))
    /\ (forall r, r ∈ values Example.parts10.1.1
                      ++ values Example.parts10.1.2 ->
          length r = length (header (Example.churn_file 10))
          /\ is_Some (last r)
          /\ last r = cell_of (header (Example.churn_file 10)) "Churn?" r)
    /\ (forall r, r ∈ values Example.parts10.2 ->
          length (@removelast cell r)
          = length ["State"; "Account Length"]).
Proof.
  apply (saved_files_header_and_label nat Example.RandomState Example.choice
           0%nat (Example.churn_file 10) ["State"; "Account Length"]
           Example.parts10.1.1 Example.parts10.1.2 Example.parts10.2
           (fresh ∅ ∅)).
  - reflexivity.
  - apply (bool_decide_unpack _). vm_compute. exact I.
  - apply (bool_decide_unpack _). vm_compute. exact I.
  - vm_compute. reflexivity.
Defined.

Lemma registration_step_witness :
  let run := register_cell Example.cloud Example.noon
               (Example.fitted "sklearn:0.20.0-cpu" PreprocessFit)
               (Example.fitted "xgboost:1.2-1" XgbTrain)
               Example.post_model (fresh ∅ ∅) in
  exists c1 c2 c3,
    registrations (trace run.2)
    = [] ++ [(model_name_at Example.noon, [c1; c2; c3])]
    /\ Image c1 = "sklearn:0.20.0-cpu"
    /\ Image c2 = "xgboost:1.2-1"
    /\ Environment c3 !! "TRANSFORM_MODE" = Some "inverse-label-transform"
    /\ run.1 = Ok (model_name_at Example.noon)
    /\ model_name_at Example.later <> model_name_at Example.noon.
Proof.
  destruct (registration_step Example.cloud Example.noon
              (Example.fitted "sklearn:0.20.0-cpu" PreprocessFit)
              (Example.fitted "xgboost:1.2-1" XgbTrain)
              Example.post_model (fresh ∅ ∅) PreprocessFit XgbTrain
              eq_refl eq_refl)
    as (c1 & c2 & c3 & Hreg & (Hi1 & _) & (Hi2 & _) & (_ & _ & He3)
        & _ & Hfree & Hlater).
  exists c1, c2, c3.
  split; [exact Hreg|]. split; [exact Hi1|]. split; [exact Hi2|].
  split; [exact He3|]. split.
  - apply Hfree. reflexivity.
  - apply (Hlater Example.later).
    + unfold valid_time, Example.noon. cbn. lia.
    + unfold valid_time, Example.later. cbn. lia.
    + discriminate.
Defined.


Lemma test_partition_reaches_no_job_witness :
  let run1 := notebook Example.cloud nat Example.RandomState Example.choice
                       0%nat Example.noon (Example.churn_file 10)
                       (fresh ∅ ∅) in
  let run2 := notebook Example.cloud nat Example.RandomState Example.choice
                       0%nat Example.noon Example.churn_file_alt
                       (fresh ∅ ∅) in
  submissions (trace run1.2) = submissions (trace run2.2)
  /\ run1.1 = run2.1
  /\ registry run1.2 = registry run2.2
  /\ Forall (fun sub =>
               (S3Uri s3_input_test ∉ request_inputs sub.1.2)
               /\ Forall (fun uri => String.prefix uri test_object = false)
                         (request_inputs sub.1.2))
            (submissions (trace run1.2)).
Proof.
  apply (test_partition_reaches_no_job Example.cloud nat Example.RandomState
           Example.choice 0%nat Example.noon (Example.churn_file 10)
           Example.churn_file_alt ∅ ∅
           Example.parts10.1.1 Example.parts10.1.2 Example.parts10.2
           Example.parts10_alt.2).
  - vm_compute. reflexivity.
  - vm_compute. reflexivity.
Defined.

(** The two example datasets do differ in their test partitions. *)
Lemma Example_test_partitions_differ :
  Example.parts10.2 <> Example.parts10_alt.2.
Proof. vm_compute. discriminate. Qed.

(** * Further properties of the notebook *)

(** ** The split: sizes, order, edge cases *)

Lemma slice_length_clamped {A} (l : list A) (a b : Z) :
  0 <= a -> 0 <= b ->
  Z.of_nat (length (py_slice l a b))
  = Z.max 0 (Z.min b (Z.of_nat (length l)) - Z.min a (Z.of_nat (length l))).
Proof.
  intros Ha Hb. rewrite py_slice_nonneg by lia.
  rewrite length_take, length_drop. lia.
Qed.

Lemma take_clamp {A} (l : list A) (k : Z) :
  0 <= k ->
  take (Z.to_nat (Z.min k (Z.of_nat (length l)))) l = take (Z.to_nat k) l.
Proof.
  intros Hk. destruct (decide (k <= Z.of_nat (length l))) as [Hle|Hgt].
  - f_equal. lia.
  - rewrite !take_ge by lia. done.
Qed.

Lemma drop_clamp {A} (l : list A) (k : Z) :
  0 <= k ->
  drop (Z.to_nat (Z.min k (Z.of_nat (length l)))) l = drop (Z.to_nat k) l.
Proof.
  intros Hk. destruct (decide (k <= Z.of_nat (length l))) as [Hle|Hgt].
  - f_equal. lia.
  - rewrite !drop_ge by lia. done.
Qed.

Lemma all_from_sound (fuel : nat) (n : Z) (f : Z -> bool) :
  all_from fuel n f = true ->
  forall k, n <= k < n + Z.of_nat fuel -> f k = true.
Proof.
  revert n. induction fuel as [|fuel IH]; intros n Hall k Hk; [lia|].
  cbn [all_from] in Hall. apply andb_prop in Hall as [Hn Hrest].
  destruct (decide (k = n)) as [->|Hne]; [done|].
  apply (IH (n + 1) Hrest). lia.
Qed.

Lemma boundaries_upto_10000 :
  all_from (Z.to_nat 10001) 0 boundaries_in_order = true.
Proof. vm_compute. reflexivity. Qed.

(** The bound on [int(0.7 * n)] is met: [0.7 * 90] is just below 63. *)
Lemma Example_boundary_90 : py_int (0.7 * py_float 90)%float = Ok 62.
Proof. vm_compute. reflexivity. Qed.

Section SplitterEdges.

Context (rng : Type) (RandomState : Z -> rng) (choice : rng -> nat -> list nat).
Hypothesis choice_perm : forall g n, choice g n ≡ₚ seq 0 n.

(** X1. Line 175, sizes.  With boundaries in order the three partitions have
    [min i1 n], [min i2 n - min i1 n] and [n - min i2 n] records ([n] the
    size of the input: a boundary beyond the end is cut back to it), which
    add up to [n], and each partition keeps the input's columns. *)
Theorem split_sizes ambient seed frac1 frac2 (churn : DataFrame) (i1 i2 : Z) :
  boundary frac1 churn = Ok i1 ->
  boundary frac2 churn = Ok i2 ->
  0 <= i1 <= i2 ->
  exists train validation test,
    splitter rng RandomState choice ambient seed frac1 frac2 churn
    = Ok (train, validation, test)
    /\ len train = Z.min i1 (len churn)
    /\ len validation = Z.min i2 (len churn) - Z.min i1 (len churn)
    /\ len test = len churn - Z.min i2 (len churn)
    /\ len train + len validation + len test = len churn
    /\ columns train = columns churn
    /\ columns validation = columns churn
    /\ columns test = columns churn.
Proof.
  intros H1 H2 Hord.
  destruct (splitter_slices rng RandomState choice choice_perm
              ambient seed frac1 frac2 _ _ _ H1 H2) as (sh & Hp & Hsplit).
  eexists _, _, _. split; [exact Hsplit|].
  assert (Hn : length sh = length (rows churn)) by (by rewrite Hp).
  unfold len. cbn [rows columns].
  rewrite !slice_length_clamped by lia. rewrite Hn.
  repeat split; lia.
Qed.

(** X2. Line 175 with its own fractions, for every dataset of up to 10,000
    records: both boundaries are computed, [0 <= i1 <= i2 <= n] with
    [i2 = 9n/10] rounded down and [i1] the rounded-down [7n/10] or one
    less; the split returns partitions of [i1], [i2 - i1] and [n - i2]
    records that together are a rearrangement of the input. *)
Theorem split_cell_boundaries ambient (churn : DataFrame) :
  len churn <= 10000 ->
  exists i1 i2 train validation test,
    boundary 0.7%float churn = Ok i1
    /\ boundary 0.9%float churn = Ok i2
    /\ 0 <= i1 <= i2 /\ i2 <= len churn
    /\ 7 * len churn / 10 - 1 <= i1 <= 7 * len churn / 10
    /\ i2 = 9 * len churn / 10
    /\ split_cell rng RandomState choice ambient churn
       = Ok (train, validation, test)
    /\ len train = i1
    /\ len validation = i2 - i1
    /\ len test = len churn - i2
    /\ rows train ++ rows validation ++ rows test ≡ₚ rows churn.
Proof.
  intros Hn.
  assert (Hok : boundaries_in_order (len churn) = true).
  { apply (all_from_sound _ _ _ boundaries_upto_10000). unfold len in *. lia. }
  unfold boundaries_in_order in Hok.
  destruct (py_int (0.7 * py_float (len churn))%float) as [i1|] eqn:E1; [|done].
  destruct (py_int (0.9 * py_float (len churn))%float) as [i2|] eqn:E2; [|done].
  repeat (apply andb_prop in Hok as [Hok ?]).
  destruct (splitter_slices rng RandomState choice choice_perm
              ambient 1729 0.7%float 0.9%float churn i1 i2 E1 E2)
    as (sh & Hp & Hsplit).
  assert (Hlen : length sh = length (rows churn)) by (by rewrite Hp).
  exists i1, i2. eexists _, _, _.
  split; [exact E1|]. split; [exact E2|].
  split; [lia|]. split; [lia|]. split; [lia|]. split; [lia|].
  split; [exact Hsplit|].
  cbn [rows]. rewrite slices_cover by lia.
  unfold len in *. cbn [rows].
  rewrite !slice_length_clamped by lia. rewrite Hlen.
  split; [lia|]. split; [lia|]. split; [lia|]. exact Hp.
Qed.

(** X3. Line 175, boundaries out of order.  When the second boundary comes
    out below the first ([0 <= i2 < i1 <= n]) the split still returns:
    the validation partition is empty, train has [i1] records and test
    [n - i2], and the record at position [i2] of the shuffled frame is in
    both train and test. *)
Theorem split_boundaries_out_of_order ambient seed frac1 frac2
    (churn : DataFrame) (i1 i2 : Z) :
  boundary frac1 churn = Ok i1 ->
  boundary frac2 churn = Ok i2 ->
  0 <= i2 < i1 -> i1 <= len churn ->
  exists train validation test,
    splitter rng RandomState choice ambient seed frac1 frac2 churn
    = Ok (train, validation, test)
    /\ rows validation = []
    /\ len train = i1
    /\ len test = len churn - i2
    /\ exists r, r ∈ rows train /\ r ∈ rows test /\ r ∈ rows churn.
Proof.
  intros H1 H2 Hord Hn.
  destruct (splitter_slices rng RandomState choice choice_perm
              ambient seed frac1 frac2 _ _ _ H1 H2) as (sh & Hp & Hsplit).
  assert (Hlen : Z.of_nat (length sh) = len churn)
    by (unfold len; by rewrite Hp).
  eexists _, _, _. split; [exact Hsplit|].
  unfold len at 1 2. cbn [rows].
  rewrite !py_slice_nonneg by lia. rewrite Hlen.
  replace (Z.to_nat (Z.min 0 (len churn))) with 0%nat by lia.
  rewrite drop_0, Nat.sub_0_r.
  split; [|split; [|split]].
  - replace (Z.to_nat (Z.min i2 (len churn)) - Z.to_nat (Z.min i1 (len churn)))%nat
      with 0%nat by lia. done.
  - rewrite length_take. lia.
  - rewrite length_take, length_drop. lia.
  - destruct (lookup_lt_is_Some_2 sh (Z.to_nat i2) ltac:(lia)) as [r Hr].
    exists r. split; [|split].
    + apply list_elem_of_lookup. exists (Z.to_nat i2).
      rewrite lookup_take_lt by lia. done.
    + apply list_elem_of_lookup. exists 0%nat.
      rewrite lookup_take_lt by lia. rewrite lookup_drop.
      replace (Z.to_nat (Z.min i2 (len churn)) + 0)%nat with (Z.to_nat i2) by lia.
      done.
    + rewrite <- Hp. by eapply list_elem_of_lookup_2.
Qed.

(** X4. Line 175 on a dataset without records: the split returns three empty
    partitions with the input's columns. *)
Theorem split_cell_empty ambient (churn : DataFrame) :
  rows churn = [] ->
  split_cell rng RandomState choice ambient churn
  = Ok (mkDF (columns churn) [], mkDF (columns churn) [],
        mkDF (columns churn) []).
Proof.
  intros Hrows.
  assert (H1 : boundary 0.7%float churn = Ok 0)
    by (unfold boundary, len; rewrite Hrows; by vm_compute).
  assert (H2 : boundary 0.9%float churn = Ok 0)
    by (unfold boundary, len; rewrite Hrows; by vm_compute).
  destruct (splitter_slices rng RandomState choice choice_perm
              ambient 1729 0.7%float 0.9%float churn 0 0 H1 H2)
    as (sh & Hp & Hsplit).
  rewrite Hrows in Hp. apply Permutation_nil_r in Hp. subst sh.
  exact Hsplit.
Qed.

End SplitterEdges.

(** X5. Line 175, order.  Whatever the sampler, when it returns a frame
    and the two boundaries are computed with [0 <= i1 <= i2], the
    partitions are consecutive runs of the shuffled frame: train its first
    [i1] records, test what follows position [i2], validation what lies
    between, in the shuffled order, and put end to end they are the
    shuffled frame. *)
Theorem split_keeps_shuffled_order (rng : Type) (RandomState : Z -> rng)
    (choice : rng -> nat -> list nat) ambient seed frac1 frac2
    (churn shuffled : DataFrame) (i1 i2 : Z) :
  sample rng RandomState choice ambient (Some seed) churn = Ok shuffled ->
  boundary frac1 churn = Ok i1 ->
  boundary frac2 churn = Ok i2 ->
  0 <= i1 <= i2 ->
  exists train validation test,
    splitter rng RandomState choice ambient seed frac1 frac2 churn
    = Ok (train, validation, test)
    /\ rows train ++ rows validation ++ rows test = rows shuffled
    /\ rows train = take (Z.to_nat i1) (rows shuffled)
    /\ rows validation
       = take (Z.to_nat i2 - Z.to_nat i1) (drop (Z.to_nat i1) (rows shuffled))
    /\ rows test = drop (Z.to_nat i2) (rows shuffled).
Proof.
  intros Hs H1 H2 Hord.
  unfold splitter. rewrite Hs. cbn [mbind result_bind].
  rewrite H1, H2. cbn [mbind result_bind]. rewrite np_split_two.
  eexists _, _, _. split; [reflexivity|]. cbn [rows]. unfold len.
  split; [by apply slices_cover|].
  rewrite !py_slice_nonneg by lia.
  set (l := rows shuffled).
  replace (Z.to_nat (Z.min 0 (Z.of_nat (length l)))) with 0%nat by lia.
  rewrite drop_0, Nat.sub_0_r.
  rewrite !drop_clamp, take_clamp by lia.
  split; [done|]. split.
  - destruct (decide (Z.to_nat i1 <= length l)%nat) as [Hle1|Hgt1].
    + destruct (decide (Z.to_nat i2 <= length l)%nat) as [Hle2|Hgt2].
      * f_equal. lia.
      * rewrite !take_ge; [done|rewrite length_drop; lia..].
    + rewrite !drop_ge by lia. by rewrite !take_nil.
  - apply take_ge. rewrite length_drop. lia.
Qed.

(** Fractions 0.5 and 1.5 on ten records: the second boundary, 15, is cut
    back to the end. *)
Lemma split_sizes_witness :
  exists train validation test,
    splitter nat Example.RandomState Example.choice 0%nat 1729
             0.5%float 1.5%float (read_csv (Example.churn_file 10))
    = Ok (train, validation, test)
    /\ len train = 5
    /\ len validation = 5
    /\ len test = 0
    /\ len train + len validation + len test = 10
    /\ columns train = Example.churn_header
    /\ columns validation = Example.churn_header
    /\ columns test = Example.churn_header.
Proof.
  apply (split_sizes nat Example.RandomState Example.choice
           Example_choice_perm 0%nat 1729 0.5%float 1.5%float
           (read_csv (Example.churn_file 10)) 5 15).
  - vm_compute. reflexivity.
  - vm_compute. reflexivity.
  - lia.
Defined.

Lemma split_cell_boundaries_witness :
  exists i1 i2 train validation test,
    boundary 0.7%float (read_csv (Example.churn_file 90)) = Ok i1
    /\ boundary 0.9%float (read_csv (Example.churn_file 90)) = Ok i2
    /\ 0 <= i1 <= i2 /\ i2 <= 90
    /\ 62 <= i1 <= 63
    /\ i2 = 81
    /\ split_cell nat Example.RandomState Example.choice 0%nat
                  (read_csv (Example.churn_file 90))
       = Ok (train, validation, test)
    /\ len train = i1
    /\ len validation = i2 - i1
    /\ len test = 90 - i2
    /\ rows train ++ rows validation ++ rows test
       ≡ₚ rows (read_csv (Example.churn_file 90)).
Proof.
  apply (split_cell_boundaries nat Example.RandomState Example.choice
           Example_choice_perm 0%nat (read_csv (Example.churn_file 90))).
  vm_compute. discriminate.
Defined.

(** The notebook's fractions the other way round, on ten records. *)
Lemma split_boundaries_out_of_order_witness :
  exists train validation test,
    splitter nat Example.RandomState Example.choice 0%nat 1729
             0.9%float 0.7%float (read_csv (Example.churn_file 10))
    = Ok (train, validation, test)
    /\ rows validation = []
    /\ len train = 9
    /\ len test = 3
    /\ exists r, r ∈ rows train /\ r ∈ rows test
                 /\ r ∈ rows (read_csv (Example.churn_file 10)).
Proof.
  apply (split_boundaries_out_of_order nat Example.RandomState Example.choice
           Example_choice_perm 0%nat 1729 0.9%float 0.7%float
           (read_csv (Example.churn_file 10)) 9 7).
  - vm_compute. reflexivity.
  - vm_compute. reflexivity.
  - lia.
  - vm_compute. discriminate.
Defined.

Lemma split_cell_empty_witness :
  split_cell nat Example.RandomState Example.choice 0%nat
             (read_csv (Example.churn_file 0))
  = Ok (mkDF Example.churn_header [], mkDF Example.churn_header [],
        mkDF Example.churn_header []).
Proof.
  apply (split_cell_empty nat Example.RandomState Example.choice
           Example_choice_perm 0%nat (read_csv (Example.churn_file 0))).
  reflexivity.
Defined.

Lemma split_keeps_shuffled_order_witness :
  exists train validation test,
    splitter nat Example.RandomState Example.choice 0%nat 3
             0.7%float 0.9%float (read_csv (Example.churn_file 10))
    = Ok (train, validation, test)
    /\ rows train ++ rows validation ++ rows test
       = rotate 3 (rows (read_csv (Example.churn_file 10)))
    /\ rows train = take 7 (rotate 3 (rows (read_csv (Example.churn_file 10))))
    /\ rows validation
       = take 2 (drop 7 (rotate 3 (rows (read_csv (Example.churn_file 10)))))
    /\ rows test = drop 9 (rotate 3 (rows (read_csv (Example.churn_file 10)))).
Proof.
  apply (split_keeps_shuffled_order nat Example.RandomState Example.choice
           0%nat 3 0.7%float 0.9%float (read_csv (Example.churn_file 10))
           (mkDF Example.churn_header
                 (rotate 3 (rows (read_csv (Example.churn_file 10))))) 7 9).
  - vm_compute. reflexivity.
  - vm_compute. reflexivity.
  - vm_compute. reflexivity.
  - lia.
Defined.

(** ** The uploads *)

Lemma under_lookup (uri k : string) (s : gmap string object) :
  under uri s !! k = if String.prefix uri k then s !! k else None.
Proof.
  unfold under. destruct (String.prefix uri k) eqn:E.
  - destruct (s !! k) as [v|] eqn:Hk.
    + apply map_lookup_filter_Some. by split.
    + apply map_lookup_filter_None. left. done.
  - apply map_lookup_filter_None. right. intros v _. cbn. by rewrite E.
Qed.

(** X7. Lines 194-196 and 212-214.  With the three files in the working
    directory the upload cell stores each at its own location, in the order
    train, validation, test, and touches nothing else; afterwards the train
    input location holds the train file and neither of the other two, and
    likewise for the validation and test input locations. *)
Theorem upload_cell_objects (w : world) (train validation test : csv) :
  files w !! "train.csv" = Some train ->
  files w !! "validation.csv" = Some validation ->
  files w !! "test.csv" = Some test ->
  exists w',
    upload_cell w = (Ok tt, w')
    /\ storage w'
       = <[test_object := CsvObject test]>
           (<[validation_object := CsvObject validation]>
              (<[train_object := CsvObject train]> (storage w)))
    /\ trace w'
       = trace w ++ [EvUpload train_object; EvUpload validation_object;
                     EvUpload test_object]
    /\ files w' = files w /\ registry w' = registry w /\ jobs w' = jobs w
    /\ (let held := under (S3Uri s3_input_train) (storage w') in
        held !! train_object = Some (CsvObject train)
        /\ held !! validation_object = None /\ held !! test_object = None)
    /\ (let held := under (S3Uri s3_input_validation) (storage w') in
        held !! validation_object = Some (CsvObject validation)
        /\ held !! train_object = None /\ held !! test_object = None)
    /\ (let held := under (S3Uri s3_input_test) (storage w') in
        held !! test_object = Some (CsvObject test)
        /\ held !! train_object = None /\ held !! validation_object = None).
Proof.
  intros Ht Hv Hte.
  unfold upload_cell, bind, upload_file.
  rewrite Ht. cbn [files log set_storage]. rewrite Hv.
  cbn [files log set_storage]. rewrite Hte.
  eexists. split; [reflexivity|].
  cbn [storage trace files registry jobs log set_storage].
  fold train_object validation_object test_object.
  split; [reflexivity|].
  split; [by rewrite <- !app_assoc|].
  do 3 (split; [reflexivity|]).
  cbv zeta. rewrite !under_lookup.
  repeat split; try reflexivity.
  - change (String.prefix (S3Uri s3_input_train) train_object) with true.
    cbv iota. do 2 (rewrite lookup_insert_ne by done). apply lookup_insert_eq.
  - change (String.prefix (S3Uri s3_input_validation) validation_object)
      with true.
    cbv iota. rewrite lookup_insert_ne by done. apply lookup_insert_eq.
  - change (String.prefix (S3Uri s3_input_test) test_object) with true.
    cbv iota. apply lookup_insert_eq.
Qed.

(** X8. Lines 194-196 with a file missing: the upload of the first missing
    file raises; the uploads before it have happened and stay. *)
Theorem upload_cell_missing_file (w : world) :
  (files w !! "train.csv" = None ->
   upload_cell w = (Raise (FileNotFoundError "train.csv"), w))
  /\ (forall train,
        files w !! "train.csv" = Some train ->
        files w !! "validation.csv" = None ->
        upload_cell w
        = (Raise (FileNotFoundError "validation.csv"),
           log (EvUpload train_object)
               (set_storage (<[train_object := CsvObject train]> (storage w))
                            w)))
  /\ (forall train validation,
        files w !! "train.csv" = Some train ->
        files w !! "validation.csv" = Some validation ->
        files w !! "test.csv" = None ->
        upload_cell w
        = (Raise (FileNotFoundError "test.csv"),
           log (EvUpload validation_object)
               (set_storage
                  (<[validation_object := CsvObject validation]>
                     (<[train_object := CsvObject train]> (storage w)))
                  (log (EvUpload train_object) w)))).
Proof.
  unfold upload_cell, bind, upload_file. repeat split.
  - intros Ht. by rewrite Ht.
  - intros train Ht Hv. rewrite Ht. cbn [files log set_storage].
    by rewrite Hv.
  - intros train validation Ht Hv Hte. rewrite Ht.
    cbn [files log set_storage]. rewrite Hv. cbn [files log set_storage].
    by rewrite Hte.
Qed.

Lemma upload_cell_objects_witness :
  exists w',
    upload_cell (mkWorld {[ "train.csv" := [["a"]]; "validation.csv" := [["b"]];
                            "test.csv" := [["c"]] ]} ∅ ∅ [] [])
    = (Ok tt, w')
    /\ storage w' !! train_object = Some (CsvObject [["a"]])
    /\ under (S3Uri s3_input_validation) (storage w') !! train_object = None.
Proof.
  destruct (upload_cell_objects
              (mkWorld {[ "train.csv" := [["a"]]; "validation.csv" := [["b"]];
                          "test.csv" := [["c"]] ]} ∅ ∅ [] [])
              [["a"]] [["b"]] [["c"]])
    as (w' & Hrun & Hst & _ & _ & _ & _ & _ & (_ & Hnone & _) & _).
  - vm_compute. reflexivity.
  - vm_compute. reflexivity.
  - vm_compute. reflexivity.
  - exists w'. split; [exact Hrun|]. split; [|exact Hnone].
    rewrite Hst. do 2 (rewrite lookup_insert_ne by done).
    apply lookup_insert_eq.
Defined.

Lemma upload_cell_missing_file_witness :
  upload_cell (mkWorld {[ "train.csv" := [["a"]] ]} ∅ ∅ [] [])
  = (Raise (FileNotFoundError "validation.csv"),
     mkWorld {[ "train.csv" := [["a"]] ]}
             {[ train_object := CsvObject [["a"]] ]} ∅ []
             [EvUpload train_object]).
Proof.
  destruct (upload_cell_missing_file
              (mkWorld {[ "train.csv" := [["a"]] ]} ∅ ∅ [] []))
    as (_ & Hv & _).
  apply (Hv [["a"]]).
  - vm_compute. reflexivity.
  - vm_compute. reflexivity.
Defined.

(** ** The registered name, spelled out *)

(** X9. Lines 439-440.  For a clock reading with a four-digit year the model
    name is the fixed text followed by the six fields at fixed width,
    41 characters in all. *)
Theorem model_name_format (t : struct_time) :
  valid_time t ->
  model_name_at t
  = "QS-inference-pipeline-" +:+ four_digits (tm_year t)
    +:+ "-" +:+ two_digits (tm_mon t) +:+ "-" +:+ two_digits (tm_mday t)
    +:+ "-" +:+ two_digits (tm_hour t) +:+ "-" +:+ two_digits (tm_min t)
    +:+ "-" +:+ two_digits (tm_sec t)
  /\ String.length (model_name_at t) = 41%nat.
Proof.
  intros (Hy & Hm & Hd & Hh & Hmi & Hs).
  unfold model_name_at. rewrite strftime_fields.
  rewrite decimal_four_digits, !zero_pad2_two_digits by lia.
  split; reflexivity.
Qed.

Lemma model_name_format_witness :
  model_name_at Example.noon = "QS-inference-pipeline-2021-03-09-12-00-05"
  /\ String.length (model_name_at Example.noon) = 41%nat.
Proof.
  apply (model_name_format Example.noon).
  unfold valid_time, Example.noon. cbn. lia.
Defined.

(** ** Whole runs *)

Ltac run_jobs H :=
  repeat first
    [ file_lookup H; step_in H
    | job_lookup H; step_in H
    | case_job H; step_in H ];
  try (case_registry H; step_in H).

(** X10. The jobs of a run are submitted in the order preprocessing fit, train
    transform, validation transform, training, each at most once and none
    before the ones ahead of it; a run that returns has submitted all
    four. *)
Theorem jobs_submitted_in_order (P : platform) (rng : Type)
    (RandomState : Z -> rng) (choice : rng -> nat -> list nat) (ambient : rng)
    (gmtime : struct_time) (churn : table) (st : gmap string object)
    (reg : gmap string (list container * string)) :
  let run := notebook P rng RandomState choice ambient gmtime churn
                      (fresh st reg) in
  submitted (trace run.2) `prefix_of` job_order
  /\ (forall name, run.1 = Ok name -> submitted (trace run.2) = job_order).
Proof.
  destruct (notebook _ _ _ _ _ _ _ _) as [r w] eqn:Hrun. cbn [fst snd].
  run Hrun;
    cbn [trace submitted submissions omap list_omap fmap list_fmap fst];
    (split; [eexists; reflexivity|]); intros name [=]; reflexivity.
Qed.

(** X11. The registry changes only in a run that returns: such a run has made
    one registration, under the name built from the clock reading, which
    was free, with three containers and the execution role; a run that
    raises leaves the registry as it was; and a registration is attempted
    only after the waits on all four jobs have returned. *)
Theorem registry_all_or_nothing (P : platform) (rng : Type)
    (RandomState : Z -> rng) (choice : rng -> nat -> list nat) (ambient : rng)
    (gmtime : struct_time) (churn : table) (st : gmap string object)
    (reg : gmap string (list container * string)) :
  let run := notebook P rng RandomState choice ambient gmtime churn
                      (fresh st reg) in
  (forall name, run.1 = Ok name ->
     name = model_name_at gmtime
     /\ reg !! name = None
     /\ exists cs,
          registrations (trace run.2) = [(name, cs)]
          /\ length cs = 3%nat
          /\ registry run.2 = <[name := (cs, execution_role P)]> reg)
  /\ (forall e, run.1 = Raise e -> registry run.2 = reg)
  /\ (registrations (trace run.2) <> [] ->
      Forall (fun j => StWaitReturned j ∈ steps (trace run.2)) job_order).
Proof.
  destruct (notebook _ _ _ _ _ _ _ _) as [r w] eqn:Hrun. cbn [fst snd].
  run Hrun; cbn [trace registry registrations omap list_omap];
    (split; [|split]).
  all: try (intros ? [=]; fail).
  all: try (intros ? _; reflexivity).
  all: try (intros Hne; by destruct Hne).
  - intros Hne. skeleton. unfold job_order.
    repeat constructor; elem_solve.
  - intros name [= <-]. split; [reflexivity|]. split; [assumption|].
    eexists. split; [reflexivity|]. split; reflexivity.
  - intros Hne. skeleton. unfold job_order.
    repeat constructor; elem_solve.
Qed.

(** X12. A run, completed or failed, empties no storage location and
    touches no registration that exists: every location that held an object
    at the start holds one at the end, every location a step wrote holds
    one at the end, and every registration that existed is there
    unchanged. *)
Theorem nothing_is_deleted (P : platform) (rng : Type)
    (RandomState : Z -> rng) (choice : rng -> nat -> list nat) (ambient : rng)
    (gmtime : struct_time) (churn : table) (st : gmap string object)
    (reg : gmap string (list container * string)) :
  let run := notebook P rng RandomState choice ambient gmtime churn
                      (fresh st reg) in
  (forall uri, is_Some (st !! uri) -> is_Some (storage run.2 !! uri))
  /\ (forall e uri, e ∈ trace run.2 -> uri ∈ written_by e ->
        is_Some (storage run.2 !! uri))
  /\ (forall name old, reg !! name = Some old ->
        registry run.2 !! name = Some old).
Proof.
  destruct (notebook _ _ _ _ _ _ _ _) as [r w] eqn:Hrun. cbn [fst snd].
  run Hrun; cbn [storage trace registry].
  all: split; [intros uri Huri; in_storage|].
  all: split;
    [intros ev uri He Hw; elem_inv He; subst ev; cbn [written_by] in Hw;
     try (apply list_elem_of_singleton in Hw as ->);
     try (by apply elem_of_nil in Hw);
     in_storage|].
  all: try (intros name old Hold; exact Hold).
  intros name old Hold. rewrite lookup_insert_ne; [exact Hold|].
  intros <-. match goal with
             | Hfree : reg !! _ = None |- _ =>
                 discriminate (eq_trans (eq_sym Hfree) Hold)
             end.
Qed.

Ltac run_saved H :=
  lazymatch type of H with
  | context [df_drop ?l ?df] =>
      let E := fresh "Edrop" in
      destruct (df_drop l df) as [?|?] eqn:E
  end;
  step_in H;
  [ run_jobs H | ].

Lemma df_drop_raises (label : string) (df : DataFrame) (e : exn) :
  df_drop label df = Raise e -> e = KeyError label /\ label ∉ columns df.
Proof. unfold df_drop. case_decide; [done|]. by intros [= <-]. Qed.

Lemma split_cell_columns (rng : Type) (RandomState : Z -> rng)
    (choice : rng -> nat -> list nat) ambient (churn : table)
    (train validation test : DataFrame) :
  split_cell rng RandomState choice ambient (read_csv churn)
  = Ok (train, validation, test) ->
  columns test = header churn.
Proof.
  intros Hs. apply splitter_inv in Hs. rewrite !Forall_cons in Hs.
  destruct Hs as (_ & _ & (Hc & _) & _). exact Hc.
Qed.

Lemma dom_registry_insert (r : gmap string (list container * string))
    (name : string) (v : list container * string) :
  is_Some (<[name := v]> r !! name).
Proof. by rewrite lookup_insert_eq. Qed.

Lemma prefix_app_false (a b s : string) :
  String.prefix a s = false -> String.prefix (a +:+ b) s = false.
Proof.
  revert s. induction a as [|c a IH]; intros [|d s] H; try done.
  change (String c a +:+ b) with (String c (a +:+ b)).
  cbn in H |- *. destruct (ascii_dec c d); [by apply IH|done].
Qed.

(** X13. Lines 175-178 on a dataset without a ['Churn?'] column: once the split
    has returned, [train.csv] and [validation.csv] are written, the drop
    raises [KeyError], and the run ends there: no [test.csv], nothing
    uploaded, no job submitted, storage and registry as they were. *)
Theorem missing_label_stops_the_run (P : platform) (rng : Type)
    (RandomState : Z -> rng) (choice : rng -> nat -> list nat) (ambient : rng)
    (gmtime : struct_time) (churn : table) (st : gmap string object)
    (reg : gmap string (list container * string))
    (train validation test : DataFrame) :
  split_cell rng RandomState choice ambient (read_csv churn)
  = Ok (train, validation, test) ->
  "Churn?" ∉ header churn ->
  notebook P rng RandomState choice ambient gmtime churn (fresh st reg)
  = (Raise (KeyError "Churn?"),
     mkWorld (<["validation.csv" := values validation]>
                (<["train.csv" := values train]> ∅))
             st reg [] []).
Proof.
  intros Hs Hno.
  assert (Hd : df_drop "Churn?" test = Raise (KeyError "Churn?")).
  { unfold df_drop. rewrite (split_cell_columns _ _ _ _ _ _ _ _ Hs).
    by rewrite decide_False. }
  unfold notebook, split_and_save, bind, lift. rewrite Hs.
  unfold save_cell, bind, lift, write_file. rewrite Hd. reflexivity.
Qed.

(** X14. The preprocessing fit (line 256) is handed what the train input
    location holds when it is submitted: the train file exactly as line 176
    wrote it, neither the validation nor the test file, and otherwise what
    storage already held under that location. *)
Theorem fit_reads_uploaded_train_file (P : platform) (rng : Type)
    (RandomState : Z -> rng) (choice : rng -> nat -> list nat) (ambient : rng)
    (gmtime : struct_time) (churn : table) (st : gmap string object)
    (reg : gmap string (list container * string))
    (train validation test : DataFrame)
    (req : job_request) (data : list (gmap string object)) :
  let run := notebook P rng RandomState choice ambient gmtime churn
                      (fresh st reg) in
  split_cell rng RandomState choice ambient (read_csv churn)
  = Ok (train, validation, test) ->
  EvSubmit PreprocessFit req data ∈ trace run.2 ->
  request_inputs req = [S3Uri s3_input_train]
  /\ exists held,
       data = [held]
       /\ held !! train_object = Some (CsvObject (values train))
       /\ held !! validation_object = None
       /\ held !! test_object = None
       /\ forall k, String.prefix (S3Uri s3_input_train) k = true ->
            k <> train_object -> held !! k = st !! k.
Proof.
  destruct (notebook _ _ _ _ _ _ _ _) as [r w] eqn:Hrun. cbn [fst snd].
  intros Hs Hin. apply submission_in in Hin.
  step_in Hrun. rewrite Hs in Hrun. step_in Hrun. run_saved Hrun.
  all: injection Hrun as <- <-.
  all: cbn [trace submissions omap list_omap] in Hin; elem_inv Hin.
  all: injection Hin as -> ->.
  all: split; [reflexivity|]; eexists; split; [reflexivity|].
  all: fold train_object validation_object test_object.
  all: rewrite !under_lookup.
  all: split;
    [change (String.prefix (s3_format Params.bucket Params.prefix "rawtrain/")
                           train_object) with true;
     cbv iota; do 2 (rewrite lookup_insert_ne by done);
     apply lookup_insert_eq|].
  all: split; [reflexivity|]; split; [reflexivity|].
  all: intros k Hk Hne; rewrite under_lookup;
    match goal with
    | |- (if ?c then _ else _) = _ =>
        change c with (String.prefix (S3Uri s3_input_train) k)
    end;
    rewrite Hk.
  all: assert (k <> validation_object) by (intros ->; discriminate Hk).
  all: assert (k <> test_object) by (intros ->; discriminate Hk).
  all: by rewrite !lookup_insert_ne by done.
Qed.

(** X15. The two transforms (lines 276-286 and 301-308) run the same model, the
    one built from the preprocessing fit: its image, its artifacts, in
    feature-transform mode.  The first reads the train input location, the
    second the validation input location, and they write under different
    output paths. *)
Theorem transforms_share_fitted_model (P : platform) (rng : Type)
    (RandomState : Z -> rng) (choice : rng -> nat -> list nat) (ambient : rng)
    (gmtime : struct_time) (churn : table) (st : gmap string object)
    (reg : gmap string (list container * string))
    (req1 req2 : job_request) (data1 data2 : list (gmap string object)) :
  let run := notebook P rng RandomState choice ambient gmtime churn
                      (fresh st reg) in
  EvSubmit TransformTrain req1 data1 ∈ trace run.2 ->
  EvSubmit TransformValidation req2 data2 ∈ trace run.2 ->
  exists t1 t2,
    req1 = TransformRequest t1 (S3Uri s3_input_train) "text/csv"
    /\ req2 = TransformRequest t2 (S3Uri s3_input_validation) "text/csv"
    /\ Transformer.model t1 = Transformer.model t2
    /\ Transformer.model t1
       = Model.mk (sklearn_image_uri P) (model_artifacts P PreprocessFit)
                  {[ "TRANSFORM_MODE" := "feature-transform" ]}
    /\ Transformer.output_path t1
       = s3_format Params.bucket Params.prefix "transformtrain-train-output/"
    /\ Transformer.output_path t2
       = s3_format Params.bucket Params.prefix
                   "transformtrain-validation-output/"
    /\ Transformer.output_path t1 <> Transformer.output_path t2.
Proof.
  destruct (notebook _ _ _ _ _ _ _ _) as [r w] eqn:Hrun. cbn [fst snd].
  intros Hin1 Hin2. apply submission_in in Hin1, Hin2.
  run Hrun; cbn [trace submissions omap list_omap] in Hin1, Hin2;
    elem_inv Hin1; elem_inv Hin2.
  all: injection Hin1 as -> ->; injection Hin2 as -> ->.
  all: eexists _, _; repeat (split; [reflexivity|]); discriminate.
Qed.

(** X16. The training job (line 398) reads the two transform outputs: its train
    channel is the train transform's output path followed by that job's
    name, its validation channel likewise; neither location covers any of
    the three raw files the run uploaded. *)
Theorem training_reads_transform_outputs (P : platform) (rng : Type)
    (RandomState : Z -> rng) (choice : rng -> nat -> list nat) (ambient : rng)
    (gmtime : struct_time) (churn : table) (st : gmap string object)
    (reg : gmap string (list container * string))
    (req : job_request) (data : list (gmap string object)) :
  let run := notebook P rng RandomState choice ambient gmtime churn
                      (fresh st reg) in
  EvSubmit XgbTrain req data ∈ trace run.2 ->
  exists xgb ti_train ti_validation,
    req = TrainingRequest xgb [("train", ti_train);
                               ("validation", ti_validation)]
    /\ Estimator.image_uri xgb = xgboost_image_uri P
    /\ S3Uri ti_train
       = s3_format Params.bucket Params.prefix "transformtrain-train-output/"
         +:+ job_name P TransformTrain
    /\ S3Uri ti_validation
       = s3_format Params.bucket Params.prefix
                   "transformtrain-validation-output/"
         +:+ job_name P TransformValidation
    /\ Forall (fun uri =>
                 String.prefix uri train_object = false
                 /\ String.prefix uri validation_object = false
                 /\ String.prefix uri test_object = false)
              (request_inputs req).
Proof.
  destruct (notebook _ _ _ _ _ _ _ _) as [r w] eqn:Hrun. cbn [fst snd].
  intros Hin. apply submission_in in Hin.
  run Hrun; cbn [trace submissions omap list_omap] in Hin; elem_inv Hin.
  all: injection Hin as -> ->.
  all: eexists _, _, _; do 4 (split; [reflexivity|]).
  all: cbn [request_inputs fmap list_fmap snd S3Uri s3_data].
  all: repeat constructor; by apply prefix_app_false.
Qed.

(** X17. When the split returns, the dataset has its label column, the platform
    fails no job and the name is free, the run goes through every cell and
    returns the name it registered. *)
Theorem run_completes (P : platform) (rng : Type)
    (RandomState : Z -> rng) (choice : rng -> nat -> list nat) (ambient : rng)
    (gmtime : struct_time) (churn : table) (st : gmap string object)
    (reg : gmap string (list container * string))
    (train validation test : DataFrame) :
  let run := notebook P rng RandomState choice ambient gmtime churn
                      (fresh st reg) in
  split_cell rng RandomState choice ambient (read_csv churn)
  = Ok (train, validation, test) ->
  "Churn?" ∈ header churn ->
  (forall j req data, run_job P j req data <> None) ->
  reg !! model_name_at gmtime = None ->
  run.1 = Ok (model_name_at gmtime)
  /\ steps (trace run.2)
     = [StUpload; StUpload; StUpload;
        StSubmit PreprocessFit; StWaitReturned PreprocessFit;
        StReadOutput PreprocessFit;
        StSubmit TransformTrain; StPrint; StWaitReturned TransformTrain;
        StReadOutput TransformTrain; StPrint;
        StSubmit TransformValidation; StPrint;
        StWaitReturned TransformValidation;
        StReadOutput TransformValidation; StPrint;
        StPrint; StPrint;
        StSubmit XgbTrain; StWaitReturned XgbTrain;
        StReadOutput PreprocessFit; StReadOutput PreprocessFit;
        StReadOutput XgbTrain; StCreateModel]
  /\ is_Some (registry run.2 !! model_name_at gmtime).
Proof.
  destruct (notebook _ _ _ _ _ _ _ _) as [r w] eqn:Hrun. cbn [fst snd].
  intros Hs Hlabel Hjobs Hfree.
  step_in Hrun. rewrite Hs in Hrun. step_in Hrun. run_saved Hrun.
  all: try (match goal with
            | Hfail : run_job _ _ _ _ = None |- _ =>
                destruct (Hjobs _ _ _ Hfail)
            end).
  - discriminate (eq_trans (eq_sym Hfree) Ereg).
  - injection Hrun as <- <-. split; [reflexivity|]. split; [reflexivity|].
    cbn [registry]. apply dom_registry_insert.
  - apply df_drop_raises in Edrop as [_ Hno].
    rewrite (split_cell_columns _ _ _ _ _ _ _ _ Hs) in Hno. done.
Qed.

(** ** The whole-run properties on the example platform *)

Lemma submitted_inv (tr : list event) (j : job_id) :
  j ∈ submitted tr -> exists req data, EvSubmit j req data ∈ tr.
Proof.
  unfold submitted, submissions. intros Hj.
  apply list_elem_of_fmap in Hj as ([j' req] & -> & Hj).
  apply list_elem_of_fmap in Hj as ([[j'' req'] data] & [= <- <-] & Hj).
  apply list_elem_of_omap in Hj as (e & He & Hsome).
  destruct e; try discriminate. injection Hsome as -> -> ->.
  by exists req, data.
Qed.

Lemma missing_label_stops_the_run_witness :
  notebook Example.cloud nat Example.RandomState Example.choice 0%nat
           Example.noon Example.unlabelled_file (fresh ∅ ∅)
  = (Raise (KeyError "Churn?"),
     mkWorld (<["validation.csv" := values Example.parts_unlabelled.1.2]>
                (<["train.csv" := values Example.parts_unlabelled.1.1]> ∅))
             ∅ ∅ [] []).
Proof.
  apply (missing_label_stops_the_run Example.cloud nat Example.RandomState
           Example.choice 0%nat Example.noon Example.unlabelled_file ∅ ∅
           Example.parts_unlabelled.1.1 Example.parts_unlabelled.1.2
           Example.parts_unlabelled.2).
  - vm_compute. reflexivity.
  - apply (bool_decide_unpack _). vm_compute. exact I.
Defined.

Lemma fit_reads_uploaded_train_file_witness :
  let run := notebook Example.cloud nat Example.RandomState Example.choice
                      0%nat Example.noon (Example.churn_file 10) (fresh ∅ ∅) in
  exists req data held,
    EvSubmit PreprocessFit req data ∈ trace run.2
    /\ request_inputs req = [S3Uri s3_input_train]
    /\ data = [held]
    /\ held !! train_object = Some (CsvObject (values Example.parts10.1.1))
    /\ held !! validation_object = None
    /\ held !! test_object = None.
Proof.
  destruct (submitted_inv
              (trace (notebook Example.cloud nat Example.RandomState
                               Example.choice 0%nat Example.noon
                               (Example.churn_file 10) (fresh ∅ ∅)).2)
              PreprocessFit)
    as (req & data & Hin).
  - apply (bool_decide_unpack _). vm_compute. exact I.
  - destruct (fit_reads_uploaded_train_file Example.cloud nat
                Example.RandomState Example.choice 0%nat Example.noon
                (Example.churn_file 10) ∅ ∅
                Example.parts10.1.1 Example.parts10.1.2 Example.parts10.2
                req data)
      as (Hreq & held & Hdata & Htrain & Hval & Htest & _).
    + vm_compute. reflexivity.
    + exact Hin.
    + exists req, data, held. repeat split; assumption.
Defined.

Lemma transforms_share_fitted_model_witness :
  let run := notebook Example.cloud nat Example.RandomState Example.choice
                      0%nat Example.noon (Example.churn_file 10) (fresh ∅ ∅) in
  exists t1 t2 data1 data2,
    EvSubmit TransformTrain
             (TransformRequest t1 (S3Uri s3_input_train) "text/csv") data1
      ∈ trace run.2
    /\ EvSubmit TransformValidation
                (TransformRequest t2 (S3Uri s3_input_validation) "text/csv")
                data2
         ∈ trace run.2
    /\ Transformer.model t1 = Transformer.model t2
    /\ Model.model_data (Transformer.model t1) = "s3://artifacts/model.tar.gz"
    /\ Transformer.output_path t1 <> Transformer.output_path t2.
Proof.
  cbv zeta.
  destruct (submitted_inv
              (trace (notebook Example.cloud nat Example.RandomState
                               Example.choice 0%nat Example.noon
                               (Example.churn_file 10) (fresh ∅ ∅)).2)
              TransformTrain)
    as (req1 & data1 & Hin1);
    [apply (bool_decide_unpack _); vm_compute; exact I|].
  destruct (submitted_inv
              (trace (notebook Example.cloud nat Example.RandomState
                               Example.choice 0%nat Example.noon
                               (Example.churn_file 10) (fresh ∅ ∅)).2)
              TransformValidation)
    as (req2 & data2 & Hin2);
    [apply (bool_decide_unpack _); vm_compute; exact I|].
  destruct (transforms_share_fitted_model Example.cloud nat
              Example.RandomState Example.choice 0%nat Example.noon
              (Example.churn_file 10) ∅ ∅ req1 req2 data1 data2 Hin1 Hin2)
    as (t1 & t2 & -> & -> & Hsame & Hmodel & _ & _ & Hout).
  exists t1, t2, data1, data2.
  split; [exact Hin1|]. split; [exact Hin2|]. split; [exact Hsame|].
  split; [by rewrite Hmodel|exact Hout].
Defined.

Lemma training_reads_transform_outputs_witness :
  let run := notebook Example.cloud nat Example.RandomState Example.choice
                      0%nat Example.noon (Example.churn_file 10) (fresh ∅ ∅) in
  exists xgb ti_train ti_validation data,
    EvSubmit XgbTrain
             (TrainingRequest xgb [("train", ti_train);
                                   ("validation", ti_validation)]) data
      ∈ trace run.2
    /\ Estimator.image_uri xgb = "xgboost:1.2-1"
    /\ S3Uri ti_train
       = s3_format Params.bucket Params.prefix "transformtrain-train-output/"
         +:+ "job"
    /\ S3Uri ti_validation
       = s3_format Params.bucket Params.prefix
                   "transformtrain-validation-output/"
         +:+ "job".
Proof.
  cbv zeta.
  destruct (submitted_inv
              (trace (notebook Example.cloud nat Example.RandomState
                               Example.choice 0%nat Example.noon
                               (Example.churn_file 10) (fresh ∅ ∅)).2)
              XgbTrain)
    as (req & data & Hin);
    [apply (bool_decide_unpack _); vm_compute; exact I|].
  destruct (training_reads_transform_outputs Example.cloud nat
              Example.RandomState Example.choice 0%nat Example.noon
              (Example.churn_file 10) ∅ ∅ req data Hin)
    as (xgb & ti1 & ti2 & -> & Himg & H1 & H2 & _).
  exists xgb, ti1, ti2, data.
  split; [exact Hin|]. split; [exact Himg|]. split; [exact H1|exact H2].
Defined.

Lemma run_completes_witness :
  let run := notebook Example.cloud nat Example.RandomState Example.choice
                      0%nat Example.noon (Example.churn_file 10) (fresh ∅ ∅) in
  run.1 = Ok (model_name_at Example.noon)
  /\ length (steps (trace run.2)) = 24%nat
  /\ is_Some (registry run.2 !! model_name_at Example.noon).
Proof.
  destruct (run_completes Example.cloud nat Example.RandomState
              Example.choice 0%nat Example.noon (Example.churn_file 10) ∅ ∅
              Example.parts10.1.1 Example.parts10.1.2 Example.parts10.2)
    as (Hok & Hsteps & Hreg).
  - vm_compute. reflexivity.
  - apply (bool_decide_unpack _). vm_compute. exact I.
  - intros j [est inputs|tr data' ct] data; discriminate.
  - reflexivity.
  - split; [exact Hok|]. split; [|exact Hreg]. by rewrite Hsteps.
Defined.

(** ** Dropping the label column, wherever it sits *)

Lemma list_find_filter_snd {A} (Q R : A -> Prop) `{!forall x, Decision (Q x)}
    `{!forall x, Decision (R x)} (l : list A) :
  (forall x, Q x -> R x) ->
  snd <$> list_find Q (filter R l) = snd <$> list_find Q l.
Proof.
  intros HQR. induction l as [|x l IH]; [done|].
  destruct (decide (R x)) as [HR|HR].
  - rewrite filter_cons_True by done. cbn [list_find].
    destruct (decide (Q x)); [done|].
    rewrite <- !option_fmap_compose. exact IH.
  - rewrite filter_cons_False by done. cbn [list_find].
    rewrite decide_False by (intros HQ; by apply HR, HQR).
    rewrite <- option_fmap_compose. exact IH.
Qed.

Lemma filter_zip_fst (label : string) (cols : list string) (r : list cell) :
  length r = length cols ->
  (filter (fun p : string * cell => p.1 ≠ label) (zip cols r)).*1
  = filter (fun c => c ≠ label) cols.
Proof.
  revert r. induction cols as [|c cols IH]; intros [|x r] Hlen;
    simplify_eq/=; [done|].
  destruct (decide (c = label)) as [->|Hne].
  - rewrite !filter_cons_False by (cbn; tauto). by apply IH.
  - rewrite !filter_cons_True by done. cbn. f_equal. by apply IH.
Qed.

Lemma cell_of_keep_cells (cols : list string) (label c : string)
    (r : list cell) :
  length r = length cols -> c <> label ->
  cell_of (filter (fun c => c ≠ label) cols) c (keep_cells cols label r)
  = cell_of cols c r.
Proof.
  intros Hlen Hc. unfold cell_of, keep_cells.
  rewrite <- (filter_zip_fst label cols r Hlen), zip_fst_snd.
  pose proof (list_find_filter_snd (fun p : string * cell => p.1 = c)
                (fun p => p.1 ≠ label) (zip cols r)) as H.
  destruct (list_find _ (filter _ _)) as [[i p]|];
    destruct (list_find _ (zip cols r)) as [[k q]|]; cbn in H |- *;
    try (specialize (H ltac:(intros x ->; exact Hc))); simplify_eq/=; done.
Qed.

(** X19. Line 178, [drop('Churn?', axis=1)], on rows as wide as the header and
    with the label column anywhere: the result has no column of that name,
    keeps the index labels and the alignment of rows and header, and under
    every other column name each row holds the cell it held before. *)
Theorem drop_keeps_other_columns (label : string) (df out : DataFrame) :
  Forall (fun r => length r.2 = length (columns df)) (rows df) ->
  df_drop label df = Ok out ->
  (label ∈ columns df)
  /\ (label ∉ columns out)
  /\ (forall c, c <> label -> (c ∈ columns out <-> c ∈ columns df))
  /\ index out = index df
  /\ Forall (fun r => length r.2 = length (columns out)) (rows out)
  /\ forall k r, rows df !! k = Some r ->
       exists r', rows out !! k = Some r'
         /\ forall c, c <> label ->
              cell_of (columns out) c r'.2 = cell_of (columns df) c r.2.
Proof.
  intros Hwf. unfold df_drop. case_decide as Hin; [|done]. intros [= <-].
  cbn [columns rows]. split; [exact Hin|]. split; [|split; [|split; [|split]]].
  - intros Hl. apply list_elem_of_filter in Hl as [Hl _]. done.
  - intros c Hc. rewrite list_elem_of_filter. tauto.
  - unfold index. cbn [rows]. rewrite <- list_fmap_compose.
    apply list_fmap_ext. by intros k [i r] _.
  - apply Forall_fmap. eapply Forall_impl; [exact Hwf|].
    intros [i r] Hlen. cbn in Hlen |- *. unfold keep_cells.
    rewrite <- (filter_zip_fst label (columns df) r Hlen).
    by rewrite !length_fmap.
  - intros k [i r] Hk. eexists. split.
    + rewrite list_lookup_fmap, Hk. reflexivity.
    + intros c Hc. cbn [snd prod_map]. apply cell_of_keep_cells; [|done].
      rewrite Forall_forall in Hwf.
      apply (Hwf (i, r)). by eapply list_elem_of_lookup_2.
Qed.

Lemma drop_keeps_other_columns_witness :
  let df := mkDF ["State"; "Churn?"; "Account Length"]
                 [(4%nat, ["KS"; "True."; "128"])] in
  let out := mkDF ["State"; "Account Length"] [(4%nat, ["KS"; "128"])] in
  ("Churn?" ∈ columns df)
  /\ ("Churn?" ∉ columns out)
  /\ (forall c, c <> "Churn?" -> (c ∈ columns out <-> c ∈ columns df))
  /\ index out = index df
  /\ Forall (fun r => length r.2 = length (columns out)) (rows out)
  /\ forall k r, rows df !! k = Some r ->
       exists r', rows out !! k = Some r'
         /\ forall c, c <> "Churn?" ->
              cell_of (columns out) c r'.2 = cell_of (columns df) c r.2.
Proof.
  apply (drop_keeps_other_columns "Churn?"
           (mkDF ["State"; "Churn?"; "Account Length"]
                 [(4%nat, ["KS"; "True."; "128"])])
           (mkDF ["State"; "Account Length"] [(4%nat, ["KS"; "128"])])).
  - repeat constructor.
  - vm_compute. reflexivity.
Defined.

(** ** Running the notebook again *)

Lemma run_ok_inv (P : platform) (rng : Type)
    (RandomState : Z -> rng) (choice : rng -> nat -> list nat) (ambient : rng)
    (gmtime : struct_time) (churn : table) (st : gmap string object)
    (reg : gmap string (list container * string)) (name : string) :
  let run := notebook P rng RandomState choice ambient gmtime churn
                      (fresh st reg) in
  run.1 = Ok name ->
  name = model_name_at gmtime
  /\ reg !! name = None
  /\ exists cs, registry run.2 = <[name := (cs, execution_role P)]> reg.
Proof.
  destruct (notebook _ _ _ _ _ _ _ _) as [r w] eqn:Hrun. cbn [fst snd].
  run Hrun; intros [= <-].
  split; [reflexivity|]. split; [assumption|].
  eexists. reflexivity.
Qed.

(** X20. A second run on the storage and the registry the first run left.  If
    the clock reads the same second, the second run does not return (its
    name is taken); if the clock reads another second and the second run
    returns, it has registered under another name and the first
    registration is still there, unchanged. *)
Theorem rerun_registers_under_new_name (P1 P2 : platform) (rng : Type)
    (RandomState : Z -> rng) (choice : rng -> nat -> list nat)
    (ambient1 ambient2 : rng) (gmtime1 gmtime2 : struct_time)
    (churn1 churn2 : table) (st : gmap string object)
    (reg : gmap string (list container * string)) (name1 : string) :
  let run1 := notebook P1 rng RandomState choice ambient1 gmtime1 churn1
                       (fresh st reg) in
  let run2 := notebook P2 rng RandomState choice ambient2 gmtime2 churn2
                       (fresh (storage run1.2) (registry run1.2)) in
  run1.1 = Ok name1 ->
  (gmtime2 = gmtime1 -> forall name2, run2.1 <> Ok name2)
  /\ (valid_time gmtime1 -> valid_time gmtime2 -> gmtime2 <> gmtime1 ->
      forall name2, run2.1 = Ok name2 ->
        name2 <> name1
        /\ is_Some (registry run2.2 !! name2)
        /\ is_Some (registry run1.2 !! name1)
        /\ registry run2.2 !! name1 = registry run1.2 !! name1).
Proof.
  intros run1 run2 Hok1.
  destruct (run_ok_inv _ _ _ _ _ _ _ _ _ _ Hok1) as (-> & Hfree1 & cs1 & Hreg1).
  fold run1 in Hreg1.
  assert (Hthere : is_Some (registry run1.2 !! model_name_at gmtime1))
    by (rewrite Hreg1; by rewrite lookup_insert_eq).
  split.
  - intros -> name2 Hok2.
    destruct (run_ok_inv _ _ _ _ _ _ _ _ _ _ Hok2) as (-> & Hfree2 & _).
    fold run1 in Hfree2. rewrite Hfree2 in Hthere. by apply is_Some_None in Hthere.
  - intros Hv1 Hv2 Hne name2 Hok2.
    destruct (run_ok_inv _ _ _ _ _ _ _ _ _ _ Hok2) as (-> & Hfree2 & cs2 & Hreg2).
    fold run1 run2 in Hfree2, Hreg2.
    assert (Hnames : model_name_at gmtime2 <> model_name_at gmtime1)
      by (intros Heq; by apply Hne, model_name_inj).
    split; [exact Hnames|]. split; [|split; [exact Hthere|]].
    + rewrite Hreg2. by rewrite lookup_insert_eq.
    + rewrite Hreg2. by rewrite lookup_insert_ne.
Qed.

Lemma rerun_registers_under_new_name_witness :
  let run1 := notebook Example.cloud nat Example.RandomState Example.choice
                       0%nat Example.noon (Example.churn_file 10)
                       (fresh ∅ ∅) in
  let again := notebook Example.cloud nat Example.RandomState Example.choice
                        0%nat Example.noon (Example.churn_file 10)
                        (fresh (storage run1.2) (registry run1.2)) in
  run1.1 = Ok (model_name_at Example.noon)
  /\ again.1 <> Ok (model_name_at Example.noon).
Proof.
  cbv zeta.
  assert (Hok : (notebook Example.cloud nat Example.RandomState
                          Example.choice 0%nat Example.noon
                          (Example.churn_file 10) (fresh ∅ ∅)).1
                = Ok (model_name_at Example.noon))
    by (vm_compute; reflexivity).
  destruct (rerun_registers_under_new_name Example.cloud Example.cloud nat
              Example.RandomState Example.choice 0%nat 0%nat
              Example.noon Example.noon
              (Example.churn_file 10) (Example.churn_file 10) ∅ ∅
              (model_name_at Example.noon) Hok)
    as [Hsame _].
  split; [exact Hok|exact (Hsame eq_refl _)].
Defined.

(** ** Records keep their label and their content *)

Lemma read_csv_rows (t : table) (i : nat) (r : list cell) :
  (i, r) ∈ rows (read_csv t) <-> body t !! i = Some r.
Proof.
  unfold read_csv. cbn [rows]. rewrite elem_of_lookup_zip_with. split.
  - intros (k & i' & r' & [= -> ->] & Hi & Hr).
    apply lookup_seq in Hi as [-> _]. exact Hr.
  - intros Hr. exists i, i, r. split; [done|]. split; [|done].
    apply lookup_seq. split; [done|]. by eapply lookup_lt_Some.
Qed.

(** X21. Lines 132 and 175.  Whatever the sampler, the seed and the
    fractions, every row of every partition is a record of the file that
    was read, under the index label [read_csv] gave it: the split neither
    alters nor invents a record. *)
Theorem partition_rows_are_file_records (rng : Type) (RandomState : Z -> rng)
    (choice : rng -> nat -> list nat) ambient seed frac1 frac2
    (churn_file : table) (train validation test : DataFrame) :
  splitter rng RandomState choice ambient seed frac1 frac2
           (read_csv churn_file)
  = Ok (train, validation, test) ->
  (forall i r, (i, r) ∈ rows train ++ rows validation ++ rows test ->
     body churn_file !! i = Some r)
  /\ (forall r, r ∈ values train ++ values validation ++ values test ->
        r ∈ body churn_file).
Proof.
  intros Hs. apply splitter_inv in Hs. rewrite !Forall_cons in Hs.
  destruct Hs as ((_ & H1) & (_ & H2) & (_ & H3) & _).
  assert (Hrows : forall i r,
             (i, r) ∈ rows train ++ rows validation ++ rows test ->
             body churn_file !! i = Some r).
  { intros i r Hin. apply read_csv_rows.
    rewrite !elem_of_app in Hin. destruct Hin as [Hin|[Hin|Hin]]; auto. }
  split; [exact Hrows|].
  intros r Hr. unfold values in Hr. rewrite <- !fmap_app in Hr.
  apply list_elem_of_fmap in Hr as ([i r'] & -> & Hin).
  apply Hrows in Hin. by eapply list_elem_of_lookup_2.
Qed.

Lemma partition_rows_are_file_records_witness :
  (forall i r,
     (i, r) ∈ rows Example.parts10.1.1 ++ rows Example.parts10.1.2
              ++ rows Example.parts10.2 ->
     body (Example.churn_file 10) !! i = Some r)
  /\ (forall r,
        r ∈ values Example.parts10.1.1 ++ values Example.parts10.1.2
            ++ values Example.parts10.2 ->
        r ∈ body (Example.churn_file 10)).
Proof.
  apply (partition_rows_are_file_records nat Example.RandomState
           Example.choice 0%nat 1729 0.7%float 0.9%float
           (Example.churn_file 10)
           Example.parts10.1.1 Example.parts10.1.2 Example.parts10.2).
  vm_compute. reflexivity.
Defined.

(** ** Uploads come first *)

Lemma py_int_raises (x : float) (e : exn) :
  py_int x = Raise e -> e = OverflowError \/ e = ValueError.
Proof.
  unfold py_int. destruct (Prim2SF x); intros [= <-]; auto.
Qed.

Lemma splitter_raises (rng : Type) (RandomState : Z -> rng)
    (choice : rng -> nat -> list nat) ambient seed frac1 frac2
    (churn : DataFrame) (e : exn) :
  splitter rng RandomState choice ambient seed frac1 frac2 churn = Raise e ->
  e = IndexError \/ e = OverflowError \/ e = ValueError.
Proof.
  unfold splitter, sample, df_take, boundary.
  destruct (mapM _ _) as [rs|]; cbn [of_option mbind result_bind];
    [|intros [= <-]; auto].
  destruct (py_int (frac1 * _)) as [i1|e1] eqn:E1; cbn [mbind result_bind].
  - destruct (py_int (frac2 * _)) as [i2|e2] eqn:E2; cbn [mbind result_bind].
    + rewrite np_split_two. done.
    + intros [= <-]. apply py_int_raises in E2. tauto.
  - intros [= <-]. apply py_int_raises in E1. tauto.
Qed.

(** X22. Lines 194-196 in a run.  Of the steps a run takes from the split
    on, the uploads come first: its steps are a block of uploads followed
    by steps that are not uploads; the uploads go to the train, validation
    and test locations, in this order; a run that has submitted a job has
    made all three of them; when an upload was made the three files had
    been written; and no run ends with [FileNotFoundError]. *)
Theorem uploads_come_first (P : platform) (rng : Type)
    (RandomState : Z -> rng) (choice : rng -> nat -> list nat) (ambient : rng)
    (gmtime : struct_time) (churn : table) (st : gmap string object)
    (reg : gmap string (list container * string)) :
  let run := notebook P rng RandomState choice ambient gmtime churn
                      (fresh st reg) in
  uploads (trace run.2)
    `prefix_of` [train_object; validation_object; test_object]
  /\ (exists rest,
        steps (trace run.2)
        = replicate (length (uploads (trace run.2))) StUpload ++ rest
        /\ StUpload ∉ rest)
  /\ (submitted (trace run.2) <> [] ->
      uploads (trace run.2) = [train_object; validation_object; test_object])
  /\ (uploads (trace run.2) <> [] ->
      Forall (fun path => is_Some (files run.2 !! path))
             ["train.csv"; "validation.csv"; "test.csv"])
  /\ (forall path, run.1 <> Raise (FileNotFoundError path)).
Proof.
  destruct (notebook _ _ _ _ _ _ _ _) as [r w] eqn:Hrun. cbn [fst snd].
  step_in Hrun.
  destruct (split_cell rng RandomState choice ambient (read_csv churn))
    as [[[train validation] test]|e] eqn:Hs; step_in Hrun.
  2: { injection Hrun as <- <-. cbn [trace uploads omap list_omap].
       split; [by eexists|]. split; [exists []; split; [done|by apply not_elem_of_nil]|].
       split; [done|]. split; [done|].
       intros path [= ->]. apply splitter_raises in Hs.
       destruct Hs as [Hs|[Hs|Hs]]; discriminate Hs. }
  run_saved Hrun; injection Hrun as <- <-.
  all: cbn [trace files submitted submissions uploads omap list_omap fmap
            list_fmap fst length replicate].
  all: split; [eexists; reflexivity|].
  all: split;
    [skeleton; eexists; split; [reflexivity|]; intros Hin; elem_inv Hin|].
  all: split; [first [reflexivity | intros _; reflexivity | done]|].
  all: split; [|try (intros path; discriminate)].
  all: try (intros Hne; by destruct Hne).
  all: try (intros _; repeat constructor;
            first [ by rewrite lookup_insert_eq
                  | by rewrite lookup_insert_ne, lookup_insert_eq by done
                  | by do 2 (rewrite lookup_insert_ne by done);
                    rewrite lookup_insert_eq ]).
  apply df_drop_raises in Edrop as [-> _]. intros path. discriminate.
Qed.
